(** * Healthcare assistant (app.py): a shallow embedding and its properties

    The program is a Flask application with four JSON endpoints around one
    persisted transcript file and one outbound chat-completion call.  The
    embedding keeps the order of the Python statements:

    - Python [str] values are lists of Unicode code points;
    - the transcript file is a piece of state that every handler threads;
    - what the process cannot decide itself (the clock, whether a write
      succeeds, what the upstream API answers) is read from an environment
      record, one per request;
    - exceptions are values of a small state-and-exception monad, so that
      every [try]/[except] of the source shows up as a [try_except];
    - [print] writes to the console of the process and raises when the
      encoding of the console lacks a code point of the text; which code
      points the console can write is a parameter. *)

From Stdlib Require Import ZArith QArith List Bool String Ascii Lia Sorted.
Import ListNotations.
Open Scope Z_scope.

(** ** Python strings *)

(** A Python [str]: a sequence of code points. *)
Definition str := list Z.

Module Utf8.

(** The source file is UTF-8; literals are written here as they are in
    app.py and decoded to code points. *)
Fixpoint bytes (s : string) : list Z :=
  match s with
  | EmptyString => []
  | String a rest => Z.of_N (N_of_ascii a) :: bytes rest
  end.

Definition cont (b : Z) : Z := Z.land b 0x3F.

Fixpoint decode (bs : list Z) : str :=
  match bs with
  | [] => []
  | b0 :: r0 =>
    if b0 <? 0x80 then b0 :: decode r0
    else match r0 with
    | [] => [b0]
    | b1 :: r1 =>
      if b0 <? 0xE0 then
        (Z.shiftl (Z.land b0 0x1F) 6 + cont b1) :: decode r1
      else match r1 with
      | [] => [b0; b1]
      | b2 :: r2 =>
        if b0 <? 0xF0 then
          (Z.shiftl (Z.land b0 0x0F) 12 + Z.shiftl (cont b1) 6 + cont b2)
            :: decode r2
        else match r2 with
        | [] => [b0; b1; b2]
        | b3 :: r3 =>
          (Z.shiftl (Z.land b0 0x07) 18 + Z.shiftl (cont b1) 12
           + Z.shiftl (cont b2) 6 + cont b3) :: decode r3
        end
      end
    end
  end.

End Utf8.

(** A string literal of the source. *)
Definition lit (s : string) : str := Utf8.decode (Utf8.bytes s).

Definition str_eqb (a b : str) : bool :=
  if list_eq_dec Z.eq_dec a b then true else false.

(** Truthiness of a [str]: empty is false. *)
Definition truthy (s : str) : bool :=
  match s with [] => false | _ :: _ => true end.

(** [str.isspace] on one code point: the white-space set of the Python
    runtime. *)
Definition isspace (c : Z) : bool :=
  ((0x09 <=? c) && (c <=? 0x0D))
  || ((0x1C <=? c) && (c <=? 0x20))
  || (c =? 0x85) || (c =? 0xA0) || (c =? 0x1680)
  || ((0x2000 <=? c) && (c <=? 0x200A))
  || (c =? 0x2028) || (c =? 0x2029) || (c =? 0x202F)
  || (c =? 0x205F) || (c =? 0x3000).

Fixpoint lstrip (s : str) : str :=
  match s with
  | [] => []
  | c :: rest => if isspace c then lstrip rest else s
  end.

Definition rstrip (s : str) : str := rev (lstrip (rev s)).

(** [s.strip()] *)
Definition strip (s : str) : str := rstrip (lstrip s).

Fixpoint startswith (s prefix : str) {struct prefix} : bool :=
  match prefix, s with
  | [], _ => true
  | _ :: _, [] => false
  | a :: prefix', b :: s' => (a =? b) && startswith s' prefix'
  end.

(** [needle in hay] on strings. *)
Fixpoint contains (needle hay : str) : bool :=
  startswith hay needle
  || match hay with
     | [] => false
     | _ :: rest => contains needle rest
     end.

(** [s[:n]] for a non-negative [n]. *)
Definition slice_to (n : nat) (s : str) : str := firstn n s.

(** [l[-n:]] for a positive [n]: the last [n] elements, all of them when
    the list is shorter. *)
Definition last_n {A : Type} (n : nat) (l : list A) : list A :=
  skipn (List.length l - n)%nat l.

Definition is_ascii_upper (c : Z) : bool := (0x41 <=? c) && (c <=? 0x5A).
Definition is_ascii (c : Z) : bool := (0 <=? c) && (c <? 0x80).
Definition is_devanagari (c : Z) : bool := (0x900 <=? c) && (c <=? 0x97F).


(** ** Data model *)

(** One stored exchange: a JSON object with the keys [user], [bot],
    [timestamp] and [is_emergency].  [user] and [bot] are read with
    [chat.get(...)], so they may be missing.  [timestamp] holds the clock
    reading that [datetime.now()] returned; [isoformat()] only renders it. *)
Record turn := {
  user : option str;
  bot : option str;
  timestamp : Z;
  is_emergency : bool
}.

Inductive role := System | User | Assistant.

(** [{"role": ..., "content": ...}] *)
Record message := { msg_role : role; content : str }.

(** The keyword arguments of [client.chat.completions.create]. *)
Record api_request := {
  http_referer : str;
  x_title : str;
  model : str;
  messages : list message;
  temperature : Q;
  max_tokens : Z
}.

(** What the call gives back: a completion whose first choice has the
    given content ([None] when the API sends no text), or an exception
    with its [str(e)]. *)
Inductive completion :=
| Completed (message_content : option str)
| ApiError (error_msg : str).

(** A parsed JSON request body. *)
#[warnings="-register-all"]
Inductive json :=
| JNull
| JBool (b : bool)
| JNumber (text : str)
| JString (s : str)
| JArray (items : list json)
| JObject (members : list (str * json)).

(** [d.get(key)] on a dict built by the JSON parser: of two members with
    one key the later one counts. *)
Definition dict_get (key : str) (members : list (str * json)) : option json :=
  fold_left
    (fun found member => if str_eqb (fst member) key then Some (snd member)
                         else found)
    members None.

(** The transcript file [chat_history.json]: absent, present but not
    loadable ([open] or [json.load] raises), or holding a JSON array of
    turn objects, which is all [save_chat_history] ever writes. *)
Inductive file_state :=
| Missing
| Unreadable
| Stored (history : list turn).

(** What happens when the file is opened for writing and dumped to:
    all goes well, [open] raises (file untouched), or [json.dump] raises
    after [open] has truncated the file. *)
Inductive write_outcome :=
| Written
| OpenFails (error : str)
| DumpFails (error : str).

(** What the outside world answers during one request. *)
Record request_env := {
  now : Z;
  disk : write_outcome;
  upstream : api_request -> completion
}.

(** The state handlers act on: the file, and the requests sent upstream
    so far. *)
Record world := { file : file_state; sent : list api_request }.

Inductive reply :=
| ErrorBody (error : str)
| ChatBody (response : str) (emergency : bool) (stamp : Z)
| SuccessBody (success : bool)
| HistoryBody (history : list turn)
| TestBody (status_field site_url : str) (api_key_set : bool)
           (api_key_prefix : option str) (model_field : str).

Record http_response := { status : Z; body : reply }.

(** ** State and exceptions *)

Inductive outcome (A : Type) :=
| Returned (a : A)
| Raised (e : str).
Arguments Returned {A} a.
Arguments Raised {A} e.

Definition M (A : Type) : Type := world -> outcome A * world.

Definition ret {A} (a : A) : M A := fun w => (Returned a, w).

Definition raise {A} (e : str) : M A := fun w => (Raised e, w).

Definition bind {A B} (m : M A) (k : A -> M B) : M B :=
  fun w => match m w with
           | (Returned a, w') => k a w'
           | (Raised e, w') => (Raised e, w')
           end.

(** [try: m  except Exception as e: handler e] *)
Definition try_except {A} (m : M A) (handler : str -> M A) : M A :=
  fun w => match m w with
           | (Returned a, w') => (Returned a, w')
           | (Raised e, w') => handler e w'
           end.

Definition lift {A} (o : outcome A) : M A := fun w => (o, w).

Notation "x <- m ;; k" := (bind m (fun x => k))
  (at level 61, m at next level, right associativity).

(** ** Constants of the source *)

Definition nl : str := [10].

Definition DEFAULT_SITE_URL : str := lit "https://ai-1-itlj.onrender.com".
Definition MODEL : str := lit "openai/gpt-4o-mini".
Definition X_TITLE : str := lit "Healthcare Assistant".

Definition EMERGENCY_KEYWORDS : list str := [
  lit "chest pain"; lit "difficulty breathing"; lit "shortness of breath";
  lit "severe pain";
  lit "unconscious"; lit "heart attack"; lit "stroke"; lit "bleeding heavily";
  lit "सीने में दर्द"; lit "सांस लेने में दिक्कत"; lit "बेहोशी"; lit "तेज दर्द"
].

Definition SYSTEM_PROMPT : str :=
  lit "You are a friendly healthcare assistant who can speak English, Hindi, and Punjabi. Provide helpful health advice but always remind users to consult doctors for serious issues. Keep responses concise and caring.".

Definition EMERGENCY_REPLY : str :=
  lit "🚨 This may be an emergency! Please seek urgent medical help immediately:"
  ++ nl ++ nl ++ lit "📞 Call 102 (Ambulance)"
  ++ nl ++ lit "📞 Call 108 (Emergency)"
  ++ nl ++ lit "🏥 Visit nearest hospital"
  ++ nl ++ nl ++ lit "Your safety is the priority!".

Definition AUTH_WARNING : str :=
  lit "⚠️ API authentication failed. Please check your OpenRouter API key.".
Definition CREDITS_WARNING : str :=
  lit "⚠️ API credits exhausted. Please add credits to your OpenRouter account.".
Definition RATE_LIMIT_WARNING : str :=
  lit "⚠️ Too many requests. Please wait a moment and try again.".
Definition TIMEOUT_WARNING : str :=
  lit "⚠️ Request timed out. Please try again.".
Definition GENERIC_WARNING : str :=
  lit "⚠️ Something went wrong, please try again.".

Definition WARNINGS : list str :=
  [AUTH_WARNING; CREDITS_WARNING; RATE_LIMIT_WARNING; TIMEOUT_WARNING;
   GENERIC_WARNING].

(** [str(e)] of the [AttributeError] that [None.strip()] raises. *)
Definition NONE_STRIP_ERROR : str :=
  lit "'NoneType' object has no attribute 'strip'".

(** [type(v).__name__] of a parsed JSON value; a number is a [float] when
    its text has a fraction or an exponent or spells NaN or Infinity. *)
Definition type_name (v : json) : str :=
  match v with
  | JNull => lit "NoneType"
  | JBool _ => lit "bool"
  | JNumber text =>
    if existsb (fun c => existsb (Z.eqb c) (lit ".eENI")) text
    then lit "float" else lit "int"
  | JString _ => lit "str"
  | JArray _ => lit "list"
  | JObject _ => lit "dict"
  end.

(** [str(e)] of the [AttributeError] for a missing method. *)
Definition attribute_error (v : json) (attribute : str) : str :=
  lit "'" ++ type_name v ++ lit "' object has no attribute '"
  ++ attribute ++ lit "'".
Definition JSON_DECODE_ERROR : str := lit "Expecting value".

(** The fixed parts of the lines the program prints. *)
Definition LOG_SENDING : str := lit "🔄 Sending request to OpenRouter...".
Definition LOG_SITE : str := lit "🌐 Site: ".
Definition LOG_KEY : str := lit "🔑 Key: ".
Definition NOT_SET : str := lit "NOT SET".
Definition DOTS : str := lit "...".
Definition LOG_SUCCESS : str := lit "✅ Success! Response: ".
Definition LOG_ERROR : str := lit "❌ Error: ".
Definition LOG_USER : str := lit "💬 User: ".
Definition LOG_BOT : str := lit "🤖 Bot: ".
Definition LOG_CHAT_ERROR : str := lit "❌ Chat error: ".

(** [f"💬 User: {user_message}"], line 118. *)
Definition user_line (user_message : str) : str := LOG_USER ++ user_message.

(** [f"🤖 Bot: {bot_response[:100]}..."], line 132. *)
Definition bot_line (bot_response : str) : str :=
  LOG_BOT ++ slice_to 100 bot_response ++ DOTS.

(** [f"✅ Success! Response: {response_text[:100]}..."], line 83. *)
Definition success_line (response_text : str) : str :=
  LOG_SUCCESS ++ slice_to 100 response_text ++ DOTS.

(** [f"❌ Error: {error_msg}"], line 88. *)
Definition error_line (error_msg : str) : str := LOG_ERROR ++ error_msg.

(** [f"❌ Chat error: {str(e)}"], line 153. *)
Definition chat_error_line (e : str) : str := LOG_CHAT_ERROR ++ e.

(** ** Vocabulary of the properties *)

(** [needle] occurs in [hay] as a contiguous run of code points. *)
Definition Contains (needle hay : str) : Prop :=
  exists before after, hay = before ++ needle ++ after.

(** A string that starts and ends with something other than white space:
    [strip] cannot cut into it. *)
Definition solid_edges (k : str) : bool :=
  match k with [] => false | c :: _ => negb (isspace c) end
  && match rev k with [] => false | c :: _ => negb (isspace c) end.

(** Code points that [lower] leaves alone whatever surrounds them: ASCII
    other than the capital letters, and Devanagari, which has no case. *)
Definition caseless (c : Z) : bool :=
  negb (is_ascii_upper c) && (is_ascii c || is_devanagari c).

(** The messages one stored turn contributes to the outbound list, in the
    words of the specification: a user message if [user] is non-empty,
    then an assistant message if [bot] is non-empty. *)
Definition turn_messages (t : turn) : list message :=
  (match user t with
   | Some (c :: u) => [{| msg_role := User; content := c :: u |}]
   | _ => []
   end)
  ++ (match bot t with
      | Some (c :: b) => [{| msg_role := Assistant; content := c :: b |}]
      | _ => []
      end).

(** A text whose code points are all ASCII or pictographs: no letter of
    another script. *)
Definition english_with_pictographs (s : str) : bool :=
  forallb (fun c => is_ascii c || ((0x1F300 <=? c) && (c <=? 0x1FAFF))) s.

(** What [load] gives for a file. *)
Definition stored (f : file_state) : list turn :=
  match f with Stored history => history | _ => [] end.

(** A submission that passes validation: the body is an object whose
    [message] is a string with something left after trimming. *)
Definition accepted (get_json : outcome json) : option str :=
  match get_json with
  | Returned (JObject members) =>
    match dict_get (lit "message") members with
    | Some (JString s) =>
      match strip s with [] => None | c :: m => Some (c :: m) end
    | _ => None
    end
  | _ => None
  end.

(** Runtime tables that change nothing: enough for text whose cased
    letters are all ASCII. *)
Definition no_case_tables (before : str) (c : Z) (after : str) : str := [c].

(** What a sequence of submissions should have left in the transcript,
    given how each was answered: for each one answered 200, in order, its
    trimmed message and its clock reading. *)
Definition recorded_entries
           (answered : list ((request_env * outcome json) * http_response))
  : list (option str * Z) :=
  flat_map (fun sr =>
              if status (snd sr) =? 200 then
                match accepted (snd (fst sr)) with
                | Some m => [(Some m, now (fst (fst sr)))]
                | None => []
                end
              else [])
           answered.

Definition entry_key (t : turn) : option str * Z := (user t, timestamp t).

(** How many of the responses are 200. *)
Definition successes (responses : list http_response) : nat :=
  List.length (filter (fun r => status r =? 200) responses).

Definition clock_readings (submissions : list (request_env * outcome json))
  : list Z :=
  map (fun s => now (fst s)) submissions.

(** ** Sample inputs *)

Definition no_env (name : str) : option str := None.

Definition key_env (key : str) (name : str) : option str :=
  if str_eqb name (lit "OPENAI_API_KEY") then Some key else None.

Definition empty_world : world := {| file := Missing; sent := [] |}.

(** A console that writes UTF-8: every code point but the surrogates. *)
Definition utf8_encodable (c : Z) : bool :=
  negb ((0xD800 <=? c) && (c <=? 0xDFFF)).

Definition utf8_encode_error (text : str) : str :=
  lit "'utf-8' codec can't encode character: surrogates not allowed".

(** A message with a keyword and a lone surrogate, as the JSON text
    [chest pain \ud83d] parses. *)
Definition SURROGATE_MESSAGE : str := lit "chest pain " ++ [0xD83D].

(** The same without a keyword. *)
Definition SURROGATE_HELLO : str := lit "hello " ++ [0xD83D].

(** The body [{"message": text}]. *)
Definition say (text : str) : outcome json :=
  Returned (JObject [(lit "message", JString text)]).

Definition sample_env (t : Z) (d : write_outcome) (c : completion)
  : request_env :=
  {| now := t; disk := d; upstream := fun _ => c |}.

Definition numbered_turn (n : Z) : turn :=
  {| user := Some [0x71; 48 + n];
     bot := Some [0x61; 48 + n];
     timestamp := n;
     is_emergency := false |}.

Definition ten_turns : list turn :=
  map numbered_turn [0; 1; 2; 3; 4; 5; 6; 7; 8; 9].

(** The text of a 429 answer that also talks about credits. *)
Definition RATE_LIMIT_429 : str :=
  lit "Error code: 429 - Rate limit exceeded: free-models-per-day. Add 10 credits to unlock 1000 free model requests per day".

Definition LONG_KEY : str :=
  lit "sk-or-v1-0123456789abcdef0123456789abcdef0123456789abcdef0123456789abcdef".

Definition SHORT_KEY : str := lit "sk-or-v1-abc".

Definition three_submissions : list (request_env * outcome json) :=
  [(sample_env 1 Written (Completed (Some (lit " Rest well. "))),
    say (lit "hello"));
   (sample_env 2 Written (Completed None), say (lit "   "));
   (sample_env 3 Written (ApiError (lit "timeout")),
    say (lit "I have chest pain"))].

(** ** Vocabulary of the further properties *)

(** [str.lower] on an ASCII or Devanagari code point. *)
Definition ascii_lower_cp (c : Z) : Z :=
  if is_ascii_upper c then c + 32 else c.

(** Code points whose lower-casing the program text fixes. *)
Definition plain (c : Z) : bool := is_ascii c || is_devanagari c.

(** A submission on which the handler raises before validation: no
    parsed body, a body that is not an object, or a [message] that is not
    a string. *)
Definition malformed (get_json : outcome json) : bool :=
  match get_json with
  | Returned (JObject members) =>
    match dict_get (lit "message") members with
    | Some (JString _) => false
    | Some _ => true
    | None => false
    end
  | _ => true
  end.

(** [str(e)] of the exception a malformed submission raises. *)
Definition body_error (get_json : outcome json) : str :=
  match get_json with
  | Raised e => e
  | Returned (JObject members) =>
    match dict_get (lit "message") members with
    | Some v => attribute_error v (lit "strip")
    | None => []
    end
  | Returned v => attribute_error v (lit "get")
  end.

(** The same request with another fate for the write. *)
Definition with_disk (env : request_env) (d : write_outcome) : request_env :=
  {| now := now env; disk := d; upstream := upstream env |}.

(** ** The program *)

Section App.

(** [str.lower] on a code point that is neither ASCII nor Devanagari is
    decided by the Unicode tables of the Python runtime; it may give
    several code points and may look at the neighbours (Greek final
    sigma).  The code points before and after are passed along. *)
Variable unicode_lower : str -> Z -> str -> str.

(** The process environment once [load_dotenv()] has run. *)
Variable getenv : str -> option str.

(** The code points the encoding of the console can write, and [str(e)]
    of the [UnicodeEncodeError] raised on a text it cannot. *)
Variable encodable : Z -> bool.
Variable encode_error : str -> str.

Definition lower_cp (before : str) (c : Z) (after : str) : str :=
  if is_ascii_upper c then [c + 32]
  else if is_ascii c then [c]
  else if is_devanagari c then [c]
  else unicode_lower before c after.

Fixpoint lower_from (before_rev : str) (s : str) : str :=
  match s with
  | [] => []
  | c :: after =>
    lower_cp (rev before_rev) c after ++ lower_from (c :: before_rev) after
  end.

(** [s.lower()] *)
Definition lower (s : str) : str := lower_from [] s.

(** Lines 14-16. *)
Definition OPENAI_API_KEY : option str := getenv (lit "OPENAI_API_KEY").

Definition SITE_URL : str :=
  match getenv (lit "SITE_URL") with
  | Some url => url
  | None => DEFAULT_SITE_URL
  end.

(** *** Console *)

Definition printable (s : str) : bool := forallb encodable s.

(** [print(s)].  What is written is not kept; what matters to the
    handlers is whether the call raises. *)
Definition print (s : str) : M unit :=
  fun w => if printable s then (Returned tt, w)
           else (Raised (encode_error s), w).

(** *** Transcript store *)

Definition read_json : M (list turn) :=
  fun w => match file w with
           | Stored history => (Returned history, w)
           | _ => (Raised JSON_DECODE_ERROR, w)
           end.

Definition path_exists (w : world) : bool :=
  match file w with Missing => false | _ => true end.

Definition load_chat_history : M (list turn) :=
  fun w =>
    if path_exists w
    then try_except read_json (fun _ => ret []) w
    else ret [] w.

Definition write_json (d : write_outcome) (history : list turn) : M unit :=
  fun w => match d with
           | Written =>
             (Returned tt, {| file := Stored history; sent := sent w |})
           | OpenFails e => (Raised e, w)
           | DumpFails e =>
             (Raised e, {| file := Unreadable; sent := sent w |})
           end.

(** The handler only prints the error: an ASCII line that ends with the
    text of the error of the operating system.  That [print] is taken to
    go through. *)
Definition save_chat_history (d : write_outcome) (history : list turn)
  : M unit :=
  try_except (write_json d history) (fun _ => ret tt).

(** *** Emergency detector *)

Definition detect_emergency (text : str) : bool :=
  existsb (fun keyword => contains (lower keyword) (lower text))
          EMERGENCY_KEYWORDS.

(** *** Composer and gateway *)

(** One round of the loop of lines 58-62. *)
Definition add_turn (messages : list message) (chat : turn)
  : list message :=
  let messages :=
    match user chat with
    | Some u =>
      if truthy u
      then messages ++ [{| msg_role := User; content := u |}]
      else messages
    | None => messages
    end in
  match bot chat with
  | Some b =>
    if truthy b
    then messages ++ [{| msg_role := Assistant; content := b |}]
    else messages
  | None => messages
  end.

(** Lines 55-64 of [get_gpt_response]: the list built before the call. *)
Definition build_messages (user_input : str) (chat_history : list turn)
  : list message :=
  let messages := [{| msg_role := System; content := SYSTEM_PROMPT |}] in
  let messages := fold_left add_turn (last_n 6 chat_history) messages in
  messages ++ [{| msg_role := User; content := user_input |}].

Definition make_request (msgs : list message) : api_request :=
  {| http_referer := SITE_URL;
     x_title := X_TITLE;
     model := MODEL;
     messages := msgs;
     temperature := (7 # 10)%Q;
     max_tokens := 400 |}.

(** [client.chat.completions.create(...)], then
    [completion.choices[0].message.content]. *)
Definition create (env : request_env) (req : api_request)
  : M (option str) :=
  fun w =>
    let w' := {| file := file w; sent := sent w ++ [req] |} in
    match upstream env req with
    | Completed c => (Returned c, w')
    | ApiError e => (Raised e, w')
    end.

Definition strip_content (c : option str) : M str :=
  match c with
  | Some text => ret (strip text)
  | None => raise NONE_STRIP_ERROR
  end.

(** Lines 91-100: the [except] branch of [get_gpt_response]. *)
Definition handle_api_error (error_msg : str) : str :=
  if contains (lit "401") error_msg
     || contains (lit "authentication") (lower error_msg)
  then AUTH_WARNING
  else if contains (lit "402") error_msg
          || contains (lit "credit") (lower error_msg)
  then CREDITS_WARNING
  else if contains (lit "429") error_msg
          || contains (lit "rate limit") (lower error_msg)
  then RATE_LIMIT_WARNING
  else if contains (lit "timeout") (lower error_msg)
  then TIMEOUT_WARNING
  else GENERIC_WARNING.

(** [OPENAI_API_KEY[:20] if OPENAI_API_KEY else 'NOT SET'], line 69. *)
Definition key_text : str :=
  match OPENAI_API_KEY with
  | Some key => if truthy key then slice_to 20 key else NOT_SET
  | None => NOT_SET
  end.

(** Lines 86-100: the whole [except] block, with its [print]. *)
Definition on_api_error (error_msg : str) : M str :=
  _ <- print (error_line error_msg) ;;
  ret (handle_api_error error_msg).

Definition get_gpt_response (env : request_env) (user_input : str)
           (chat_history : list turn) : M str :=
  let messages := build_messages user_input chat_history in
  try_except
    (_ <- print LOG_SENDING ;;
     _ <- print (LOG_SITE ++ SITE_URL) ;;
     _ <- print (LOG_KEY ++ key_text ++ DOTS) ;;
     c <- create env (make_request messages) ;;
     response_text <- strip_content c ;;
     _ <- print (success_line response_text) ;;
     ret response_text)
    on_api_error.

(** *** HTTP surface *)

(** [data.get('message', '')] *)
Definition get_message (data : json) : M json :=
  match data with
  | JObject members =>
    match dict_get (lit "message") members with
    | Some v => ret v
    | None => ret (JString [])
    end
  | _ => raise (attribute_error data (lit "get"))
  end.

(** [value.strip()] *)
Definition strip_value (value : json) : M str :=
  match value with
  | JString s => ret (strip s)
  | _ => raise (attribute_error value (lit "strip"))
  end.

(** Lines 152-154: the [except] block of [chat]. *)
Definition on_chat_error (e : str) : M http_response :=
  _ <- print (chat_error_line e) ;;
  ret {| status := 500;
         body := ErrorBody (lit "Something went wrong. Please try again.") |}.

(** [POST /api/chat].  [get_json] is what [request.get_json()] does on
    the request: the parsed body, or an exception. *)
Definition chat (env : request_env) (get_json : outcome json)
  : M http_response :=
  try_except
    (data <- lift get_json ;;
     value <- get_message data ;;
     user_message <- strip_value value ;;
     if negb (truthy user_message) then
       ret {| status := 400;
              body := ErrorBody (lit "Message cannot be empty") |}
     else
       _ <- print (user_line user_message) ;;
       chat_history <- load_chat_history ;;
       let emergency := detect_emergency user_message in
       bot_response <-
         (if emergency then ret EMERGENCY_REPLY
          else get_gpt_response env user_message chat_history) ;;
       _ <- print (bot_line bot_response) ;;
       let chat_entry :=
         {| user := Some user_message;
            bot := Some bot_response;
            timestamp := now env;
            is_emergency := emergency |} in
       let chat_history := chat_history ++ [chat_entry] in
       _ <- save_chat_history (disk env) chat_history ;;
       ret {| status := 200;
              body := ChatBody bot_response emergency
                               (timestamp chat_entry) |})
    on_chat_error.

(** [GET /api/history] *)
Definition get_history : M http_response :=
  history <- load_chat_history ;;
  ret {| status := 200; body := HistoryBody history |}.

(** [POST /api/clear_history] *)
Definition clear_history (env : request_env) : M http_response :=
  try_except
    (_ <- save_chat_history (disk env) [] ;;
     ret {| status := 200; body := SuccessBody true |})
    (fun e => ret {| status := 500; body := ErrorBody e |}).

(** [GET /api/test] *)
Definition test_api : http_response :=
  {| status := 200;
     body :=
       TestBody (lit "ok") SITE_URL
                (match OPENAI_API_KEY with
                 | Some key => truthy key
                 | None => false
                 end)
                (match OPENAI_API_KEY with
                 | Some key =>
                   if truthy key then Some (slice_to 20 key) else None
                 | None => None
                 end)
                MODEL |}.

(** A sequence of chat submissions, served one after the other.  An
    exception that leaves a view is the framework's 500. *)
Fixpoint serve (submissions : list (request_env * outcome json))
         (w : world) : list http_response * world :=
  match submissions with
  | [] => ([], w)
  | (env, get_json) :: rest =>
    match chat env get_json w with
    | (Returned r, w') =>
      let (rs, w'') := serve rest w' in (r :: rs, w'')
    | (Raised e, w') =>
      let (rs, w'') := serve rest w' in
      ({| status := 500; body := ErrorBody e |} :: rs, w'')
    end
  end.

(** *** Vocabulary that depends on the program *)

(** The world once [write_json] has run, whether it raised or not. *)
Definition after_write (d : write_outcome) (history : list turn)
           (w : world) : world :=
  snd (write_json d history w).

(** The world once a request has gone upstream. *)
Definition logged (w : world) (req : api_request) : world :=
  {| file := file w; sent := sent w ++ [req] |}.

(** The entry that [chat] records. *)
Definition chat_entry_of (env : request_env) (user_message bot_response : str)
           (emergency : bool) : turn :=
  {| user := Some user_message;
     bot := Some bot_response;
     timestamp := now env;
     is_emergency := emergency |}.

(** The persisted transcript as [GET /api/history] shows it. *)
Definition history_of (w : world) : list turn :=
  match fst (get_history w) with
  | Returned {| status := _; body := HistoryBody h |} => h
  | _ => []
  end.

(** The console can write every text the program itself holds: the fixed
    parts of its log lines, the emergency reply, the warnings, and the
    text of the attribute error for a completion without content. *)
Definition console_writes_fixed_texts : bool :=
  forallb printable
          [LOG_SENDING; LOG_SITE; LOG_KEY; NOT_SET; DOTS; LOG_SUCCESS;
           LOG_ERROR; LOG_USER; LOG_BOT; LOG_CHAT_ERROR; EMERGENCY_REPLY;
           NONE_STRIP_ERROR;
           AUTH_WARNING; CREDITS_WARNING; RATE_LIMIT_WARNING;
           TIMEOUT_WARNING; GENERIC_WARNING].

(** The console can write the configuration that lines 68-69 print. *)
Definition console_writes_config : bool :=
  printable SITE_URL && printable key_text.

(** The three prints of lines 67-69 go through. *)
Definition header_printable : bool :=
  printable LOG_SENDING
  && printable (LOG_SITE ++ SITE_URL)
  && printable (LOG_KEY ++ key_text ++ DOTS).

(** [str(e)] of the exception when one of them does not. *)
Definition header_error : str :=
  if negb (printable LOG_SENDING) then encode_error LOG_SENDING
  else if negb (printable (LOG_SITE ++ SITE_URL))
  then encode_error (LOG_SITE ++ SITE_URL)
  else encode_error (LOG_KEY ++ key_text ++ DOTS).

(** What the [except] block of [get_gpt_response] gives. *)
Definition api_error_result (error_msg : str) (w : world)
  : outcome str * world :=
  if printable (error_line error_msg)
  then (Returned (handle_api_error error_msg), w)
  else (Raised (encode_error (error_line error_msg)), w).

(** What the [except] block of [chat] gives. *)
Definition chat_error_result (e : str) (w : world)
  : outcome http_response * world :=
  if printable (chat_error_line e)
  then (Returned {| status := 500;
                    body := ErrorBody
                              (lit "Something went wrong. Please try again.") |},
        w)
  else (Raised (encode_error (chat_error_line e)), w).

(** What [get_gpt_response] gives once the request has gone out. *)
Definition completion_result (c : completion) (w : world)
  : outcome str * world :=
  match c with
  | Completed (Some text) =>
    if printable (success_line (strip text))
    then (Returned (strip text), w)
    else api_error_result (encode_error (success_line (strip text))) w
  | Completed None => api_error_result NONE_STRIP_ERROR w
  | ApiError error_msg => api_error_result error_msg w
  end.

(** The last steps of [chat], from line 132 on. *)
Definition finish_chat (env : request_env) (m : str) (h : list turn)
           (result : outcome str * world)
  : outcome http_response * world :=
  match result with
  | (Returned bot_response, w1) =>
    if printable (bot_line bot_response)
    then (Returned {| status := 200;
                      body := ChatBody bot_response (detect_emergency m)
                                       (now env) |},
          after_write (disk env)
                      (h ++ [chat_entry_of env m bot_response
                                           (detect_emergency m)]) w1)
    else chat_error_result (encode_error (bot_line bot_response)) w1
  | (Raised e, w1) => chat_error_result e w1
  end.

(** *** Strings *)

Lemma startswith_spec (p s : str) :
  startswith s p = true <-> exists after, s = p ++ after.
Proof.
  revert s; induction p as [|a p IH]; intros s; simpl.
  - split; [intros _; now exists s | reflexivity].
  - destruct s as [|b s].
    + split; [discriminate | intros [t H]; discriminate].
    + rewrite andb_true_iff, Z.eqb_eq, IH. split.
      * intros [-> [t ->]]. now exists t.
      * intros [t H]. injection H as -> ->. split; [reflexivity | now exists t].
Qed.

Lemma contains_spec (needle hay : str) :
  contains needle hay = true <-> Contains needle hay.
Proof.
  unfold Contains. induction hay as [|c hay IH].
  - simpl. rewrite orb_false_r, startswith_spec. split.
    + intros [t H]. exists [], t. exact H.
    + intros [[|x pre] [post H]].
      * now exists post.
      * discriminate.
  - cbn [contains]. rewrite orb_true_iff, startswith_spec, IH. split.
    + intros [[t H] | [pre [post H]]].
      * exists [], t. exact H.
      * exists (c :: pre), post. simpl. now rewrite H.
    + intros [[|x pre] [post H]].
      * left. now exists post.
      * right. injection H as -> ->. now exists pre, post.
Qed.

Lemma Contains_refl (s : str) : Contains s s.
Proof. exists [], []. simpl. now rewrite app_nil_r. Qed.

Lemma Contains_rev (k s : str) : Contains k s -> Contains (rev k) (rev s).
Proof.
  intros [pre [post ->]]. exists (rev post), (rev pre).
  now rewrite !rev_app_distr, app_assoc.
Qed.

Lemma lstrip_split (s : str) :
  exists dropped, s = dropped ++ lstrip s /\ forallb isspace dropped = true.
Proof.
  induction s as [|c s [d [H1 H2]]]; simpl.
  - now exists [].
  - destruct (isspace c) eqn:E.
    + exists (c :: d). simpl. rewrite E, H2. split; [now rewrite <- H1 | reflexivity].
    + now exists [].
Qed.

Lemma lstrip_blank (s : str) : forallb isspace s = true -> lstrip s = [].
Proof.
  induction s as [|c s IH]; simpl; [reflexivity|].
  rewrite andb_true_iff. intros [-> H]. now apply IH.
Qed.

Lemma lstrip_nil (s : str) : lstrip s = [] -> forallb isspace s = true.
Proof.
  induction s as [|c s IH]; simpl; [reflexivity|].
  destruct (isspace c); [exact IH | discriminate].
Qed.

Lemma strip_blank (s : str) : forallb isspace s = true -> strip s = [].
Proof.
  intros H. unfold strip, rstrip. now rewrite (lstrip_blank _ H).
Qed.

Lemma strip_nil (s : str) : strip s = [] -> forallb isspace s = true.
Proof.
  unfold strip, rstrip. intros H.
  apply (f_equal (@rev Z)) in H. rewrite rev_involutive in H. simpl in H.
  apply lstrip_nil in H. rewrite forallb_forall in H.
  destruct (lstrip_split s) as [d [E Hd]].
  rewrite E, forallb_app, Hd. simpl.
  apply forallb_forall. intros x Hx. apply H. now apply -> in_rev.
Qed.

Lemma Contains_lstrip (c : Z) (k s : str) :
  isspace c = false -> Contains (c :: k) s -> Contains (c :: k) (lstrip s).
Proof.
  intros Hc [pre [post ->]]. induction pre as [|a pre IH]; simpl.
  - rewrite Hc. now exists [], post.
  - destruct (isspace a).
    + exact IH.
    + now exists (a :: pre), post.
Qed.

Lemma Contains_strip (k s : str) :
  solid_edges k = true -> Contains k s -> Contains k (strip s).
Proof.
  unfold solid_edges. destruct k as [|c k]; [discriminate|].
  destruct (rev (c :: k)) as [|z rk] eqn:Er; [rewrite andb_false_r; discriminate|].
  rewrite andb_true_iff, !negb_true_iff. intros [Hc Hz] H.
  apply (Contains_lstrip _ _ _ Hc) in H.
  apply Contains_rev in H. rewrite Er in H.
  apply (Contains_lstrip _ _ _ Hz) in H.
  apply Contains_rev in H. rewrite <- Er, rev_involutive in H.
  exact H.
Qed.


(** *** Lower-casing *)

Lemma lower_cp_caseless (before after : str) (c : Z) :
  caseless c = true -> lower_cp before c after = [c].
Proof.
  unfold caseless, lower_cp. rewrite andb_true_iff, negb_true_iff, orb_true_iff.
  intros [-> [-> | H]]; [reflexivity|].
  destruct (is_ascii c); [reflexivity | now rewrite H].
Qed.

Lemma lower_from_app (a b before_rev : str) :
  exists x, lower_from before_rev (a ++ b)
            = x ++ lower_from (rev a ++ before_rev) b.
Proof.
  revert before_rev. induction a as [|c a IH]; intros p; simpl.
  - now exists [].
  - destruct (IH (c :: p)) as [x Hx]. rewrite Hx.
    exists (lower_cp (rev p) c (a ++ b) ++ x).
    now rewrite <- !app_assoc.
Qed.

Lemma lower_from_caseless (k b before_rev : str) :
  forallb caseless k = true ->
  lower_from before_rev (k ++ b) = k ++ lower_from (rev k ++ before_rev) b.
Proof.
  revert before_rev. induction k as [|c k IH]; intros p; simpl; [reflexivity|].
  rewrite andb_true_iff. intros [Hc Hk].
  rewrite lower_cp_caseless by exact Hc. rewrite IH by exact Hk. simpl.
  now rewrite <- app_assoc.
Qed.

Lemma lower_caseless (k : str) : forallb caseless k = true -> lower k = k.
Proof.
  intros H. unfold lower.
  rewrite <- (app_nil_r k) at 1. rewrite lower_from_caseless by exact H.
  simpl. apply app_nil_r.
Qed.

Lemma Contains_lower (k s : str) :
  forallb caseless k = true -> Contains k s -> Contains k (lower s).
Proof.
  intros Hk [pre [post ->]]. unfold lower.
  destruct (lower_from_app pre (k ++ post) []) as [x ->].
  rewrite lower_from_caseless by exact Hk.
  now exists x, (lower_from (rev k ++ rev pre ++ []) post).
Qed.

(** *** Emergency detector *)

Lemma keywords_caseless :
  forallb (fun k => forallb caseless k && solid_edges k) EMERGENCY_KEYWORDS
  = true.
Proof. vm_compute. reflexivity. Qed.

Lemma detect_emergency_spec (text : str) :
  detect_emergency text = true <->
  exists keyword,
    In keyword EMERGENCY_KEYWORDS
    /\ Contains (lower keyword) (lower text).
Proof.
  unfold detect_emergency. rewrite existsb_exists.
  split; intros [k [Hin H]]; exists k; (split; [exact Hin|]);
    now apply contains_spec.
Qed.

Lemma detect_emergency_literal (keyword text : str) :
  In keyword EMERGENCY_KEYWORDS -> Contains keyword text ->
  detect_emergency (strip text) = true.
Proof.
  intros Hin H. apply detect_emergency_spec. exists keyword.
  split; [exact Hin|].
  pose proof keywords_caseless as K. rewrite forallb_forall in K.
  specialize (K _ Hin). rewrite andb_true_iff in K. destruct K as [Kc Ke].
  rewrite lower_caseless by exact Kc.
  apply Contains_lower; [exact Kc|]. apply Contains_strip; assumption.
Qed.


(** *** Transcript store *)

Lemma load_chat_history_eq (w : world) :
  load_chat_history w = (Returned (stored (file w)), w).
Proof.
  unfold load_chat_history, path_exists, try_except, read_json, ret, stored.
  destruct (file w); reflexivity.
Qed.

Lemma save_chat_history_eq (d : write_outcome) (history : list turn)
      (w : world) :
  save_chat_history d history w = (Returned tt, after_write d history w).
Proof.
  unfold save_chat_history, after_write, try_except, write_json, ret.
  destruct d; reflexivity.
Qed.

Lemma history_of_eq (w : world) : history_of w = stored (file w).
Proof.
  unfold history_of, get_history, bind. rewrite load_chat_history_eq.
  reflexivity.
Qed.

Lemma after_write_written (history : list turn) (w : world) :
  after_write Written history w
  = {| file := Stored history; sent := sent w |}.
Proof. reflexivity. Qed.

Lemma sent_after_write (d : write_outcome) (history : list turn)
      (w : world) :
  sent (after_write d history w) = sent w.
Proof. destruct d; reflexivity. Qed.

(** *** Console *)

Lemma printable_app (a b : str) :
  printable (a ++ b) = printable a && printable b.
Proof. apply forallb_app. Qed.

Lemma printable_slice (n : nat) (s : str) :
  printable s = true -> printable (slice_to n s) = true.
Proof.
  unfold printable, slice_to. intros H.
  rewrite <- (firstn_skipn n s), forallb_app in H.
  now apply andb_true_iff in H.
Qed.

Lemma fixed_texts_printable :
  console_writes_fixed_texts = true ->
  forall s,
    In s [LOG_SENDING; LOG_SITE; LOG_KEY; NOT_SET; DOTS; LOG_SUCCESS;
          LOG_ERROR; LOG_USER; LOG_BOT; LOG_CHAT_ERROR; EMERGENCY_REPLY;
          NONE_STRIP_ERROR;
          AUTH_WARNING; CREDITS_WARNING; RATE_LIMIT_WARNING;
          TIMEOUT_WARNING; GENERIC_WARNING] ->
    printable s = true.
Proof.
  unfold console_writes_fixed_texts. intros H. now apply forallb_forall.
Qed.

Tactic Notation "fixed_at" constr(H) integer(n) :=
  apply (fixed_texts_printable H); cbn [In]; do n right; left; reflexivity.

Lemma user_line_printable (m : str) :
  console_writes_fixed_texts = true -> printable m = true ->
  printable (user_line m) = true.
Proof.
  intros H Hm. unfold user_line. rewrite printable_app, Hm, andb_true_r.
  fixed_at H 7.
Qed.

Lemma bot_line_printable (b : str) :
  console_writes_fixed_texts = true ->
  printable (slice_to 100 b) = true ->
  printable (bot_line b) = true.
Proof.
  intros H Hb. unfold bot_line. rewrite !printable_app, Hb.
  apply andb_true_iff. split; [fixed_at H 8|].
  apply andb_true_iff. split; [reflexivity | fixed_at H 4].
Qed.

Lemma success_line_printable (t : str) :
  console_writes_fixed_texts = true ->
  printable (slice_to 100 t) = true ->
  printable (success_line t) = true.
Proof.
  intros H Ht. unfold success_line. rewrite !printable_app, Ht.
  apply andb_true_iff. split; [fixed_at H 5|].
  apply andb_true_iff. split; [reflexivity | fixed_at H 4].
Qed.

Lemma error_line_printable (e : str) :
  console_writes_fixed_texts = true -> printable e = true ->
  printable (error_line e) = true.
Proof.
  intros H He. unfold error_line. rewrite printable_app, He, andb_true_r.
  fixed_at H 6.
Qed.

Lemma chat_error_line_printable (e : str) :
  console_writes_fixed_texts = true -> printable e = true ->
  printable (chat_error_line e) = true.
Proof.
  intros H He. unfold chat_error_line.
  rewrite printable_app, He, andb_true_r. fixed_at H 9.
Qed.

Lemma warning_printable (error_msg : str) :
  console_writes_fixed_texts = true ->
  printable (handle_api_error error_msg) = true.
Proof.
  intros H. unfold handle_api_error.
  destruct (_ || _); [fixed_at H 12|].
  destruct (_ || _); [fixed_at H 13|].
  destruct (_ || _); [fixed_at H 14|].
  destruct (contains _ _); [fixed_at H 15 | fixed_at H 16].
Qed.

Lemma header_printable_ok :
  console_writes_fixed_texts = true -> console_writes_config = true ->
  header_printable = true.
Proof.
  unfold console_writes_config, header_printable.
  intros H Hc. apply andb_true_iff in Hc. destruct Hc as [Hs Hk].
  rewrite !printable_app, Hs, Hk, !andb_true_r.
  apply andb_true_iff. split; [apply andb_true_iff; split|].
  - fixed_at H 0.
  - fixed_at H 1.
  - apply andb_true_iff. split; [fixed_at H 2 | fixed_at H 4].
Qed.

(** *** Gateway *)

Lemma on_api_error_eq (error_msg : str) (w : world) :
  on_api_error error_msg w = api_error_result error_msg w.
Proof.
  unfold on_api_error, api_error_result, bind, print, ret.
  destruct (printable _); reflexivity.
Qed.

Lemma api_error_result_world (error_msg : str) (w : world) :
  snd (api_error_result error_msg w) = w.
Proof. unfold api_error_result. destruct (printable _); reflexivity. Qed.

Lemma completion_result_world (c : completion) (w : world) :
  snd (completion_result c w) = w.
Proof.
  unfold completion_result. destruct c as [[text|]|e];
    try apply api_error_result_world.
  destruct (printable _); [reflexivity | apply api_error_result_world].
Qed.

Lemma get_gpt_response_eq (env : request_env) (user_input : str)
      (chat_history : list turn) (w : world) :
  let req := make_request (build_messages user_input chat_history) in
  get_gpt_response env user_input chat_history w
  = if header_printable
    then completion_result (upstream env req) (logged w req)
    else api_error_result header_error w.
Proof.
  cbv zeta. unfold get_gpt_response, header_printable, header_error.
  unfold try_except at 1. unfold bind at 1. unfold print at 1.
  destruct (printable LOG_SENDING); cbn [negb andb];
    [|apply on_api_error_eq].
  unfold bind at 1. unfold print at 1.
  destruct (printable (LOG_SITE ++ SITE_URL)); cbn [negb andb];
    [|apply on_api_error_eq].
  unfold bind at 1. unfold print at 1.
  destruct (printable (LOG_KEY ++ key_text ++ DOTS)); cbn [negb andb];
    [|apply on_api_error_eq].
  unfold bind at 1. unfold create, logged, completion_result.
  destruct (upstream env _) as [[text|]|e]; cbn [strip_content].
  - unfold bind, ret, print.
    destruct (printable (success_line (strip text)));
      [reflexivity | apply on_api_error_eq].
  - unfold bind, raise. apply on_api_error_eq.
  - apply on_api_error_eq.
Qed.

Lemma get_gpt_response_world (env : request_env) (user_input : str)
      (chat_history : list turn) (w : world) :
  file (snd (get_gpt_response env user_input chat_history w)) = file w
  /\ sent (snd (get_gpt_response env user_input chat_history w))
     = sent w
       ++ (if header_printable
           then [make_request (build_messages user_input chat_history)]
           else []).
Proof.
  rewrite get_gpt_response_eq. cbv zeta. destruct header_printable.
  - rewrite completion_result_world. split; reflexivity.
  - rewrite api_error_result_world, app_nil_r. split; reflexivity.
Qed.

Lemma api_error_result_ok (error_msg : str) (w : world) :
  printable (error_line error_msg) = true ->
  api_error_result error_msg w = (Returned (handle_api_error error_msg), w).
Proof. unfold api_error_result. now intros ->. Qed.

(** *** Chat handler *)

Lemma on_chat_error_eq (e : str) (w : world) :
  on_chat_error e w = chat_error_result e w.
Proof.
  unfold on_chat_error, chat_error_result, bind, print, ret.
  destruct (printable _); reflexivity.
Qed.

Lemma chat_error_result_spec (e : str) (w : world) :
  snd (chat_error_result e w) = w
  /\ forall r, fst (chat_error_result e w) = Returned r -> status r = 500.
Proof.
  unfold chat_error_result. destruct (printable _); cbn [fst snd].
  - split; [reflexivity|]. now intros r [= <-].
  - split; [reflexivity | discriminate].
Qed.

Lemma chat_accepted (env : request_env) (get_json : outcome json)
      (w : world) (m : str) :
  accepted get_json = Some m ->
  chat env get_json w =
  if printable (user_line m) then
    finish_chat env m (stored (file w))
                (if detect_emergency m then (Returned EMERGENCY_REPLY, w)
                 else get_gpt_response env m (stored (file w)) w)
  else chat_error_result (encode_error (user_line m)) w.
Proof.
  unfold accepted. destruct get_json as [[| | | |  |members]|]; try discriminate.
  destruct (dict_get (lit "message") members) as [[| | |s| |]|] eqn:E;
    try discriminate.
  destruct (strip s) as [|c r] eqn:Es; [discriminate|].
  intros [= <-].
  unfold chat, try_except at 1.
  unfold bind at 1, lift. unfold bind at 1, get_message. rewrite E.
  unfold ret at 1. unfold bind at 1, strip_value. rewrite Es.
  unfold ret at 1. cbn [truthy negb].
  unfold bind at 1. unfold print at 1.
  destruct (printable (user_line (c :: r))); [|apply on_chat_error_eq].
  unfold bind at 1. rewrite load_chat_history_eq.
  unfold bind at 1, finish_chat.
  destruct (detect_emergency (c :: r)).
  - unfold ret at 1. unfold bind at 1, print.
    destruct (printable (bot_line EMERGENCY_REPLY)); [|apply on_chat_error_eq].
    unfold bind. rewrite save_chat_history_eq. reflexivity.
  - destruct (get_gpt_response env (c :: r) (stored (file w)) w)
      as [[bot|e] w1]; [|apply on_chat_error_eq].
    unfold bind at 1, print.
    destruct (printable (bot_line bot)); [|apply on_chat_error_eq].
    unfold bind. rewrite save_chat_history_eq. reflexivity.
Qed.

Lemma chat_rejected (env : request_env) (get_json : outcome json)
      (w : world) :
  accepted get_json = None ->
  chat env get_json w
  = if malformed get_json then chat_error_result (body_error get_json) w
    else (Returned {| status := 400;
                      body := ErrorBody (lit "Message cannot be empty") |},
          w).
Proof.
  unfold accepted, malformed, body_error, chat, try_except, bind, lift,
    get_message, strip_value, ret, raise.
  destruct get_json as [[| | | |  |members]|];
    try (intros _; apply on_chat_error_eq).
  destruct (dict_get (lit "message") members) as [[| | |s| |]|] eqn:E;
    try (intros _; apply on_chat_error_eq).
  - destruct (strip s) as [|c r] eqn:Es; [|discriminate].
    intros _. reflexivity.
  - intros _. reflexivity.
Qed.

Lemma accepted_string (members : list (str * json)) (s : str) :
  dict_get (lit "message") members = Some (JString s) ->
  strip s <> [] ->
  accepted (Returned (JObject members)) = Some (strip s).
Proof.
  intros E H. unfold accepted. rewrite E.
  destruct (strip s); [contradiction | reflexivity].
Qed.

Lemma accepted_nonempty (get_json : outcome json) (m : str) :
  accepted get_json = Some m -> exists c r, m = c :: r.
Proof.
  unfold accepted. destruct get_json as [[| | | |  |members]|];
    try discriminate.
  destruct (dict_get (lit "message") members) as [[| | |s| |]|];
    try discriminate.
  destruct (strip s) as [|c r]; [discriminate|].
  intros [= <-]. now exists c, r.
Qed.

Lemma Contains_nonempty (k s : str) : k <> [] -> Contains k s -> s <> [].
Proof.
  intros Hk [pre [post ->]] H. apply app_eq_nil in H. destruct H as [_ H].
  apply app_eq_nil in H. destruct H as [H _]. contradiction.
Qed.

Lemma keyword_solid (keyword : str) :
  In keyword EMERGENCY_KEYWORDS ->
  forallb caseless keyword = true /\ solid_edges keyword = true.
Proof.
  intros Hin. pose proof keywords_caseless as K.
  rewrite forallb_forall in K. specialize (K _ Hin).
  now apply andb_true_iff in K.
Qed.

(** Every run of [chat] is of one of two kinds: it answers 200 and hands
    the store the loaded history with one entry added, or it gives
    something else and leaves the file alone. *)
Lemma chat_cases (env : request_env) (get_json : outcome json) (w : world) :
  (exists m bot w1,
      accepted get_json = Some m
      /\ file w1 = file w
      /\ chat env get_json w
         = (Returned {| status := 200;
                        body := ChatBody bot (detect_emergency m)
                                         (now env) |},
            after_write (disk env)
                        (stored (file w)
                         ++ [chat_entry_of env m bot (detect_emergency m)])
                        w1))
  \/ (file (snd (chat env get_json w)) = file w
      /\ forall r, fst (chat env get_json w) = Returned r ->
                   status r <> 200).
Proof.
  assert (Herr : forall e w1, file w1 = file w ->
            file (snd (chat_error_result e w1)) = file w
            /\ forall r, fst (chat_error_result e w1) = Returned r ->
                         status r <> 200).
  { intros e w1 Hf. destruct (chat_error_result_spec e w1) as [-> Hs].
    split; [exact Hf|]. intros r Hr. rewrite (Hs r Hr). discriminate. }
  destruct (accepted get_json) as [m|] eqn:Ea.
  - rewrite (chat_accepted env _ w _ Ea).
    destruct (printable (user_line m)); [|right; now apply Herr].
    assert (Hres : file (snd (if detect_emergency m
                              then (Returned EMERGENCY_REPLY, w)
                              else get_gpt_response env m (stored (file w)) w))
                   = file w).
    { destruct (detect_emergency m); [reflexivity|].
      apply get_gpt_response_world. }
    destruct (if detect_emergency m then _ else _) as [[bot|e] w1];
      cbn [snd] in Hres; unfold finish_chat; [|right; now apply Herr].
    destruct (printable (bot_line bot)); [|right; now apply Herr].
    left. exists m, bot, w1. repeat split; assumption.
  - rewrite (chat_rejected env _ w Ea).
    destruct (malformed get_json); [right; now apply Herr|].
    right. cbn [fst snd]. split; [reflexivity|].
    intros r [= <-]. discriminate.
Qed.

(** *** Claims about the emergency path and validation *)

Lemma finish_chat_ok (env : request_env) (m : str) (h : list turn)
      (bot_response : str) (w1 : world) :
  console_writes_fixed_texts = true ->
  printable (slice_to 100 bot_response) = true ->
  finish_chat env m h (Returned bot_response, w1)
  = (Returned {| status := 200;
                 body := ChatBody bot_response (detect_emergency m)
                                  (now env) |},
     after_write (disk env)
                 (h ++ [chat_entry_of env m bot_response (detect_emergency m)])
                 w1).
Proof.
  intros H Hb. unfold finish_chat.
  now rewrite (bot_line_printable _ H Hb).
Qed.

Lemma emergency_reply_printable :
  console_writes_fixed_texts = true ->
  printable (slice_to 100 EMERGENCY_REPLY) = true.
Proof. intros H. apply printable_slice. fixed_at H 10. Qed.

Lemma chat_emergency (env : request_env) (get_json : outcome json)
      (w : world) (m : str) :
  accepted get_json = Some m ->
  detect_emergency m = true ->
  console_writes_fixed_texts = true ->
  printable m = true ->
  chat env get_json w
  = (Returned {| status := 200;
                 body := ChatBody EMERGENCY_REPLY true (now env) |},
     after_write (disk env)
                 (stored (file w) ++ [chat_entry_of env m EMERGENCY_REPLY true])
                 w).
Proof.
  intros Ea Hd H Hm. rewrite (chat_accepted env _ w _ Ea).
  rewrite (user_line_printable _ H Hm), Hd.
  rewrite (finish_chat_ok env m _ _ w H (emergency_reply_printable H)).
  now rewrite Hd.
Qed.

(** C1 (amended): a chat submission whose message contains an emergency
    keyword and can be written to the console (as can the texts the
    program itself holds) gets the fixed emergency reply of line 127, a
    text in English with pictographs, with [is_emergency] true (status
    200), and nothing is sent upstream: the log of outbound requests is as
    it was. *)
Theorem chat_emergency_short_circuit
        (env : request_env) (members : list (str * json))
        (message keyword : str) (w : world) :
  dict_get (lit "message") members = Some (JString message) ->
  In keyword EMERGENCY_KEYWORDS ->
  Contains keyword message ->
  console_writes_fixed_texts = true ->
  printable (strip message) = true ->
  english_with_pictographs EMERGENCY_REPLY = true
  /\ exists w',
      chat env (Returned (JObject members)) w
      = (Returned {| status := 200;
                     body := ChatBody EMERGENCY_REPLY true (now env) |}, w')
      /\ sent w' = sent w.
Proof.
  intros E Hin Hc H Hm. split; [vm_compute; reflexivity|].
  destruct (keyword_solid _ Hin) as [_ Hs].
  assert (Hk : keyword <> []) by (intros ->; discriminate Hs).
  pose proof (Contains_strip _ _ Hs Hc) as Hc'.
  pose proof (Contains_nonempty _ _ Hk Hc') as Hne.
  rewrite (chat_emergency env _ w _ (accepted_string _ _ E Hne)
                          (detect_emergency_literal _ _ Hin Hc) H Hm).
  eexists. split; [reflexivity | apply sent_after_write].
Qed.

(** C2: [detect_emergency text] is true exactly when the lower-cased text
    contains the lower-cased form of one of the keywords of the fixed
    list; two texts with the same lower-cased form get the same answer. *)
Theorem detect_emergency_iff (text : str) :
  (detect_emergency text = true <->
   exists keyword,
     In keyword EMERGENCY_KEYWORDS
     /\ Contains (lower keyword) (lower text))
  /\ (forall text', lower text' = lower text ->
                    detect_emergency text' = detect_emergency text).
Proof.
  split.
  - apply detect_emergency_spec.
  - intros text' H. unfold detect_emergency. now rewrite H.
Qed.

(** C3: a submission whose message is empty or consists of white space only
    is answered 400 with an error object; the world, and with it the
    persisted transcript, is left as it was. *)
Theorem chat_blank_message_rejected
        (env : request_env) (members : list (str * json))
        (message : str) (w : world) :
  dict_get (lit "message") members = Some (JString message) ->
  forallb isspace message = true ->
  chat env (Returned (JObject members)) w
  = (Returned {| status := 400;
                 body := ErrorBody (lit "Message cannot be empty") |}, w).
Proof.
  intros E H.
  unfold chat, try_except, bind, lift, get_message, strip_value, ret.
  rewrite E, (strip_blank _ H). reflexivity.
Qed.

(** C10: a body that is a JSON object with no [message] member is handled
    as an empty message: 400 with the same error object, the world left as
    it was; the 500 branch is not taken. *)
Theorem chat_missing_message_rejected
        (env : request_env) (members : list (str * json)) (w : world) :
  dict_get (lit "message") members = None ->
  chat env (Returned (JObject members)) w
  = (Returned {| status := 400;
                 body := ErrorBody (lit "Message cannot be empty") |}, w).
Proof.
  intros E.
  unfold chat, try_except, bind, lift, get_message, strip_value, ret.
  rewrite E. reflexivity.
Qed.


(** *** Composer *)

Lemma add_turn_eq (acc : list message) (t : turn) :
  add_turn acc t = acc ++ turn_messages t.
Proof.
  unfold add_turn, turn_messages.
  destruct (user t) as [[|c u]|], (bot t) as [[|c' b]|]; simpl;
    rewrite ?app_nil_r, <- ?app_assoc; reflexivity.
Qed.

Lemma fold_add_turn (l : list turn) (acc : list message) :
  fold_left add_turn l acc = acc ++ flat_map turn_messages l.
Proof.
  revert acc. induction l as [|t l IH]; intros acc; simpl.
  - now rewrite app_nil_r.
  - now rewrite IH, add_turn_eq, <- app_assoc.
Qed.

Lemma last_n_short {A : Type} (n : nat) (l : list A) :
  (List.length l <= n)%nat -> last_n n l = l.
Proof.
  intros H. unfold last_n.
  replace (List.length l - n)%nat with 0%nat by lia. reflexivity.
Qed.

Lemma last_n_app {A : Type} (n : nat) (older recent : list A) :
  List.length recent = n -> last_n n (older ++ recent) = recent.
Proof.
  intros H. unfold last_n. rewrite length_app, H.
  replace (List.length older + n - n)%nat with (List.length older + 0)%nat
    by lia.
  now rewrite skipn_app, Nat.add_0_r, skipn_all, Nat.sub_diag.
Qed.

Lemma build_messages_eq (user_input : str) (chat_history : list turn) :
  build_messages user_input chat_history
  = [{| msg_role := System; content := SYSTEM_PROMPT |}]
      ++ flat_map turn_messages (last_n 6 chat_history)
      ++ [{| msg_role := User; content := user_input |}].
Proof.
  unfold build_messages. cbv zeta.
  now rewrite fold_add_turn, <- app_assoc.
Qed.

(** C4: the outbound list is one system message with the fixed persona
    text, then for each of the last 6 stored turns (all of them when there
    are at most 6, in stored order) a user message if [user] is non-empty
    followed by an assistant message if [bot] is non-empty, then one user
    message with the new text.  Turns before the last 6 leave no trace, and
    this list is what goes upstream, once the three lines that
    [get_gpt_response] prints first have been written. *)
Theorem build_messages_window (user_input : str) (chat_history : list turn) :
  build_messages user_input chat_history
  = [{| msg_role := System; content := SYSTEM_PROMPT |}]
      ++ flat_map turn_messages (last_n 6 chat_history)
      ++ [{| msg_role := User; content := user_input |}]
  /\ ((List.length chat_history <= 6)%nat ->
      last_n 6 chat_history = chat_history)
  /\ (forall older recent,
         chat_history = older ++ recent -> List.length recent = 6%nat ->
         last_n 6 chat_history = recent
         /\ build_messages user_input chat_history
            = build_messages user_input recent)
  /\ (forall env w,
         sent (snd (get_gpt_response env user_input chat_history w))
         = sent w
           ++ (if header_printable
               then [make_request (build_messages user_input chat_history)]
               else [])
         /\ messages (make_request (build_messages user_input chat_history))
            = build_messages user_input chat_history).
Proof.
  split; [apply build_messages_eq|].
  split; [apply last_n_short|].
  split.
  - intros older recent -> H. split; [now apply last_n_app|].
    rewrite !build_messages_eq, last_n_app by exact H.
    now rewrite last_n_short by lia.
  - intros env w. split; [apply get_gpt_response_world | reflexivity].
Qed.

(** *** Gateway failures *)

Lemma handle_api_error_in_warnings (error_msg : str) :
  In (handle_api_error error_msg) WARNINGS.
Proof.
  unfold handle_api_error, WARNINGS. cbn [In].
  destruct (_ || _); [now left|].
  destruct (_ || _); [now right; left|].
  destruct (_ || _); [now right; right; left|].
  destruct (contains _ _); [now right; right; right; left|].
  now right; right; right; right; left.
Qed.

Lemma get_gpt_response_failed (env : request_env) (user_input : str)
      (chat_history : list turn) (w : world) (error_msg : str) :
  upstream env (make_request (build_messages user_input chat_history))
  = ApiError error_msg ->
  console_writes_fixed_texts = true ->
  console_writes_config = true ->
  printable error_msg = true ->
  get_gpt_response env user_input chat_history w
  = (Returned (handle_api_error error_msg),
     logged w (make_request (build_messages user_input chat_history))).
Proof.
  intros Hu H Hc He. rewrite get_gpt_response_eq. cbv zeta.
  rewrite (header_printable_ok H Hc), Hu. cbn [completion_result].
  now apply api_error_result_ok, error_line_printable.
Qed.

(** C5 (amended): when a non-empty, non-emergency submission meets an
    upstream call that raises, and the console can write the message, the
    error text, the configuration and the program's own texts, the answer
    is a 200 chat turn whose text is one of the five fixed warnings; the
    turn with that warning as its bot text is appended to the loaded
    transcript and handed to the store, so the file holds it when the
    write succeeds. *)
Theorem chat_absorbs_upstream_error
        (env : request_env) (members : list (str * json))
        (message error_msg : str) (w : world) :
  dict_get (lit "message") members = Some (JString message) ->
  strip message <> [] ->
  detect_emergency (strip message) = false ->
  upstream env (make_request (build_messages (strip message) (history_of w)))
  = ApiError error_msg ->
  console_writes_fixed_texts = true ->
  console_writes_config = true ->
  printable (strip message) = true ->
  printable error_msg = true ->
  let warning := handle_api_error error_msg in
  let entry := chat_entry_of env (strip message) warning false in
  let req := make_request (build_messages (strip message) (history_of w)) in
  In warning WARNINGS
  /\ chat env (Returned (JObject members)) w
     = (Returned {| status := 200;
                    body := ChatBody warning false (now env) |},
        after_write (disk env) (history_of w ++ [entry]) (logged w req))
  /\ (disk env = Written ->
      history_of (snd (chat env (Returned (JObject members)) w))
      = history_of w ++ [entry]).
Proof.
  intros E Hne Hd Hu H Hc Hm He. cbv zeta.
  split; [apply handle_api_error_in_warnings|].
  rewrite history_of_eq in *.
  assert (Hchat :
    chat env (Returned (JObject members)) w
    = (Returned {| status := 200;
                   body := ChatBody (handle_api_error error_msg) false
                                    (now env) |},
       after_write (disk env)
         (stored (file w)
          ++ [chat_entry_of env (strip message)
                            (handle_api_error error_msg) false])
         (logged w (make_request
                      (build_messages (strip message) (stored (file w))))))).
  { rewrite (chat_accepted env _ w _ (accepted_string _ _ E Hne)).
    rewrite (user_line_printable _ H Hm), Hd.
    rewrite (get_gpt_response_failed _ _ _ w _ Hu H Hc He).
    rewrite finish_chat_ok;
      [now rewrite Hd | exact H
       | apply printable_slice, warning_printable, H]. }
  split; [exact Hchat|].
  intros Hw. rewrite Hchat, Hw. cbn [snd].
  rewrite history_of_eq. reflexivity.
Qed.

(** C6 (amended): let the console write the error text, the configuration
    and the program's own texts.  Then an upstream error whose message
    contains "401" yields the authentication warning; one whose message
    contains "429" yields the rate-limit warning provided none of the
    earlier tests fires, that is, the message contains neither "401" nor
    "402" and its lower-cased form contains neither "authentication" nor
    "credit". *)
Theorem gateway_classifies_401_and_429
        (env : request_env) (user_input : str) (chat_history : list turn)
        (w : world) (error_msg : str) :
  upstream env (make_request (build_messages user_input chat_history))
  = ApiError error_msg ->
  console_writes_fixed_texts = true ->
  console_writes_config = true ->
  printable error_msg = true ->
  (contains (lit "401") error_msg = true ->
   fst (get_gpt_response env user_input chat_history w)
   = Returned AUTH_WARNING)
  /\ (contains (lit "429") error_msg = true ->
      contains (lit "401") error_msg = false ->
      contains (lit "authentication") (lower error_msg) = false ->
      contains (lit "402") error_msg = false ->
      contains (lit "credit") (lower error_msg) = false ->
      fst (get_gpt_response env user_input chat_history w)
      = Returned RATE_LIMIT_WARNING).
Proof.
  intros Hu H Hc He. rewrite (get_gpt_response_failed _ _ _ w _ Hu H Hc He).
  cbn [fst]. unfold handle_api_error. split.
  - intros ->. reflexivity.
  - intros -> -> -> -> ->. reflexivity.
Qed.

(** *** Diagnostics *)

(** C7 (amended): with a non-empty key configured, [test_api] reports
    [api_key_set] true, the first 20 code points of the key, the configured
    site URL and the fixed model name; the reported prefix is shorter than
    the key exactly when the key has more than 20 code points, and is the
    whole key otherwise.  With no key (or an empty one) it reports
    [api_key_set] false and no prefix. *)
Theorem test_api_reports_key_prefix :
  (forall key,
      OPENAI_API_KEY = Some key -> key <> [] ->
      test_api = {| status := 200;
                    body := TestBody (lit "ok") SITE_URL true
                                     (Some (slice_to 20 key)) MODEL |}
      /\ (exists rest, key = slice_to 20 key ++ rest)
      /\ (List.length (slice_to 20 key) <= 20)%nat
      /\ ((20 < List.length key)%nat -> slice_to 20 key <> key)
      /\ ((List.length key <= 20)%nat -> slice_to 20 key = key))
  /\ (OPENAI_API_KEY = None \/ OPENAI_API_KEY = Some [] ->
      test_api = {| status := 200;
                    body := TestBody (lit "ok") SITE_URL false None MODEL |}).
Proof.
  split.
  - intros key E Hne. unfold test_api, slice_to. rewrite E.
    destruct key as [|c key]; [contradiction|]. cbn [truthy].
    split; [reflexivity|].
    split; [exists (skipn 20 (c :: key)); now rewrite firstn_skipn|].
    split; [apply firstn_le_length|].
    split.
    + intros Hl Heq. apply (f_equal (@List.length Z)) in Heq.
      rewrite length_firstn in Heq. lia.
    + intros Hl. now apply firstn_all2.
  - unfold test_api. intros [-> | ->]; reflexivity.
Qed.


(** *** Sequences of submissions *)

Lemma chat_step (env : request_env) (get_json : outcome json) (w : world) :
  disk env = Written ->
  (exists m bot,
      accepted get_json = Some m
      /\ fst (chat env get_json w)
         = Returned {| status := 200;
                       body := ChatBody bot (detect_emergency m) (now env) |}
      /\ history_of (snd (chat env get_json w))
         = history_of w
           ++ [chat_entry_of env m bot (detect_emergency m)])
  \/ (history_of (snd (chat env get_json w)) = history_of w
      /\ forall r, fst (chat env get_json w) = Returned r ->
                   status r <> 200).
Proof.
  intros Hd. rewrite !history_of_eq.
  destruct (chat_cases env get_json w)
    as [[m [bot [w1 [Ea [Hf Hc]]]]] | [Hf Hs]].
  - left. exists m, bot. rewrite Hc, Hd. cbn [fst snd].
    split; [exact Ea|]. split; reflexivity.
  - right. rewrite Hf. split; [reflexivity | exact Hs].
Qed.

Lemma serve_length (submissions : list (request_env * outcome json))
      (w : world) :
  List.length (fst (serve submissions w)) = List.length submissions.
Proof.
  revert w. induction submissions as [|[env gj] rest IH]; intros w;
    [reflexivity|].
  cbn [serve]. destruct (chat env gj w) as [[r|e] w'];
    specialize (IH w'); destruct (serve rest w') as [rs w''];
      cbn [fst List.length] in *; now rewrite IH.
Qed.

Lemma serve_written (submissions : list (request_env * outcome json))
      (w : world) :
  Forall (fun s => disk (fst s) = Written) submissions ->
  exists added,
    history_of (snd (serve submissions w)) = history_of w ++ added
    /\ List.length added = successes (fst (serve submissions w))
    /\ map entry_key added
       = recorded_entries (combine submissions (fst (serve submissions w))).
Proof.
  revert w. induction submissions as [|[env gj] rest IH]; intros w Hall.
  - exists []. simpl. now rewrite app_nil_r.
  - inversion Hall as [|? ? Hd Hrest]; subst. cbn [fst] in Hd.
    pose proof (chat_step env gj w Hd) as Hstep.
    cbn [serve]. destruct (chat env gj w) as [o w'] eqn:Hchat.
    cbn [fst snd] in Hstep.
    destruct (IH w' Hrest) as [added [Hh [Hl Hk]]].
    destruct (serve rest w') as [rs w''] eqn:Es. cbn [fst snd] in *.
    destruct Hstep as [[m [bot [Ea [Ho Hhist]]]] | [Hhist Hs]].
    + subst o. cbn [fst snd combine].
      exists (chat_entry_of env m bot (detect_emergency m) :: added).
      rewrite Hh, Hhist, <- app_assoc. split; [reflexivity|].
      unfold successes, recorded_entries in *.
      cbn [filter flat_map fst snd status map List.length].
      rewrite Ea. cbn. rewrite Hl, Hk. split; reflexivity.
    + exists added.
      destruct o as [r|e]; cbn [fst snd combine]; rewrite Hh, Hhist;
        (split; [reflexivity|]);
        unfold successes, recorded_entries in *;
        cbn [filter flat_map fst snd status].
      * destruct (Z.eqb_spec (status r) 200) as [Heq|_];
          [now destruct (Hs r eq_refl)|].
        split; [exact Hl | exact Hk].
      * split; [exact Hl | exact Hk].
Qed.

Lemma recorded_entries_readings
      (submissions : list (request_env * outcome json))
      (responses : list http_response) (z : Z) :
  In z (map snd (recorded_entries (combine submissions responses))) ->
  In z (clock_readings submissions).
Proof.
  unfold recorded_entries, clock_readings. revert responses.
  induction submissions as [|[env gj] rest IH]; intros [|r rs]; simpl;
    try tauto.
  rewrite map_app, in_app_iff. intros [H | H].
  - left. destruct (status r =? 200); [|now destruct H].
    destruct (accepted gj); simpl in H; tauto.
  - right. now apply (IH rs).
Qed.

Lemma recorded_entries_sorted
      (submissions : list (request_env * outcome json))
      (responses : list http_response) :
  Sorted Z.le (clock_readings submissions) ->
  Sorted Z.le (map snd (recorded_entries (combine submissions responses))).
Proof.
  intros H. apply StronglySorted_Sorted.
  apply Sorted_StronglySorted in H; [|exact Z.le_trans].
  revert responses.
  induction submissions as [|[env gj] rest IH]; intros [|r rs];
    try constructor.
  unfold clock_readings in H. simpl in H. inversion H as [|? ? Hs Hf]; subst.
  specialize (IH Hs rs). unfold recorded_entries in *.
  cbn [combine flat_map fst snd].
  destruct (status r =? 200); [|exact IH].
  destruct (accepted gj); [|exact IH].
  cbn. constructor; [exact IH|].
  apply Forall_forall. intros z Hz. rewrite Forall_forall in Hf.
  apply Hf. now apply (recorded_entries_readings rest rs).
Qed.

(** C8 (amended): start from an empty transcript and let every write
    succeed.  Then after a sequence of submissions [GET /api/history] shows
    exactly as many turns as there were 200 responses, in submission order
    (for each submission answered 200, its trimmed message and the clock
    reading of its submission), and the timestamps are non-decreasing
    whenever the clock readings are.  Under the same condition one 200
    submission adds exactly one turn at the end and leaves the earlier ones
    as they were. *)
Theorem history_after_submissions
        (submissions : list (request_env * outcome json)) (w : world) :
  history_of w = [] ->
  Forall (fun s => disk (fst s) = Written) submissions ->
  let responses := fst (serve submissions w) in
  let h := history_of (snd (serve submissions w)) in
  List.length responses = List.length submissions
  /\ List.length h = successes responses
  /\ map entry_key h = recorded_entries (combine submissions responses)
  /\ (Sorted Z.le (clock_readings submissions) ->
      Sorted Z.le (map timestamp h))
  /\ (forall env get_json w0 r w1,
         disk env = Written ->
         chat env get_json w0 = (Returned r, w1) ->
         status r = 200 ->
         exists t, history_of w1 = history_of w0 ++ [t]).
Proof.
  intros Hempty Hall. cbv zeta.
  split; [apply serve_length|].
  destruct (serve_written submissions w Hall) as [added [Hh [Hl Hk]]].
  rewrite Hempty in Hh. simpl in Hh. rewrite Hh.
  split; [exact Hl|]. split; [exact Hk|]. split.
  - intros Hs.
    apply (recorded_entries_sorted _ (fst (serve submissions w))) in Hs.
    rewrite <- Hk in Hs. rewrite map_map in Hs. exact Hs.
  - intros env gj w0 r w1 Hd Hchat Hs.
    destruct (chat_step env gj w0 Hd) as [[m [bot [_ [_ Hhist]]]] | [_ Hno]];
      rewrite Hchat in *; cbn [fst snd] in *.
    + eexists. exact Hhist.
    + now destruct (Hno r eq_refl).
Qed.

(** ** Further properties of the handlers *)

(** *** Store *)


Lemma clear_history_eq (env : request_env) (w : world) :
  clear_history env w
  = (Returned {| status := 200; body := SuccessBody true |},
     after_write (disk env) [] w).
Proof.
  unfold clear_history, try_except, bind.
  rewrite save_chat_history_eq. reflexivity.
Qed.



(** *** Chat handler: status and effects *)

Lemma malformed_not_accepted (get_json : outcome json) :
  malformed get_json = true -> accepted get_json = None.
Proof.
  unfold malformed, accepted.
  destruct get_json as [[| | | |  |members]|]; try reflexivity.
  destruct (dict_get (lit "message") members) as [[| | |s| |]|];
    try reflexivity; discriminate.
Qed.

(** X3: [POST /api/chat] answers 400 for a missing or blank message and,
    when the console can write the error line, 500 for a body that did
    not parse, is not an object or whose [message] is not a string; in both
    cases nothing else happens.  It answers 200 only for a body whose
    [message] is a non-blank string, and whenever it does not answer 200
    the transcript file is left as it was. *)
Theorem chat_status (env : request_env) (get_json : outcome json)
        (w : world) :
  (accepted get_json = None -> malformed get_json = false ->
   chat env get_json w
   = (Returned {| status := 400;
                  body := ErrorBody (lit "Message cannot be empty") |}, w))
  /\ (malformed get_json = true ->
      printable (chat_error_line (body_error get_json)) = true ->
      chat env get_json w
      = (Returned {| status := 500;
                     body := ErrorBody
                               (lit "Something went wrong. Please try again.")
                  |}, w))
  /\ (forall r, fst (chat env get_json w) = Returned r -> status r = 200 ->
                accepted get_json <> None)
  /\ ((forall r, fst (chat env get_json w) = Returned r -> status r <> 200) ->
      file (snd (chat env get_json w)) = file w).
Proof.
  split; [|split; [|split]].
  - intros Ea Hm. now rewrite (chat_rejected env _ w Ea), Hm.
  - intros Hm Hp.
    rewrite (chat_rejected env _ w (malformed_not_accepted _ Hm)), Hm.
    unfold chat_error_result. now rewrite Hp.
  - intros r Hr Hs Ea. rewrite (chat_rejected env _ w Ea) in Hr.
    destruct (malformed get_json).
    + rewrite (proj2 (chat_error_result_spec _ _) r Hr) in Hs. discriminate.
    + cbn [fst] in Hr. injection Hr as <-. discriminate.
  - intros Hno.
    destruct (chat_cases env get_json w)
      as [[m [bot [w1 [Ea [Hf Hc]]]]] | [Hf Hs]]; [|exact Hf].
    rewrite Hc in Hno. now destruct (Hno _ eq_refl).
Qed.

Lemma finish_chat_sent (env : request_env) (m : str) (h : list turn)
      (result : outcome str * world) :
  sent (snd (finish_chat env m h result)) = sent (snd result).
Proof.
  unfold finish_chat. destruct result as [[bot|e] w1]; cbn [snd].
  - destruct (printable (bot_line bot)); cbn [snd].
    + apply sent_after_write.
    + now rewrite (proj1 (chat_error_result_spec _ _)).
  - now rewrite (proj1 (chat_error_result_spec _ _)).
Qed.

Lemma chat_sent_eq (env : request_env) (get_json : outcome json)
      (w : world) :
  sent (snd (chat env get_json w))
  = sent w
    ++ match accepted get_json with
       | Some m =>
         if printable (user_line m) && negb (detect_emergency m)
            && header_printable
         then [make_request (build_messages m (stored (file w)))]
         else []
       | None => []
       end.
Proof.
  destruct (accepted get_json) as [m|] eqn:Ea.
  - rewrite (chat_accepted env _ w _ Ea).
    destruct (printable (user_line m)); cbn [andb].
    + rewrite finish_chat_sent.
      destruct (detect_emergency m); cbn [negb andb snd].
      * now rewrite app_nil_r.
      * apply get_gpt_response_world.
    + now rewrite (proj1 (chat_error_result_spec _ _)), app_nil_r.
  - rewrite (chat_rejected env _ w Ea), app_nil_r.
    destruct (malformed get_json); [|reflexivity].
    now rewrite (proj1 (chat_error_result_spec _ _)).
Qed.

(** X4: a chat request calls [client.chat.completions.create] at most
    once, and exactly when the body is accepted, the line with the message
    and the three lines of lines 67-69 could be printed, and the message
    is no emergency; the call carries the messages built from the trimmed
    message and the loaded history. *)
Theorem chat_upstream_traffic (env : request_env) (get_json : outcome json)
        (w : world) :
  sent (snd (chat env get_json w))
  = sent w
    ++ match accepted get_json with
       | Some m =>
         if printable (user_line m) && negb (detect_emergency m)
            && header_printable
         then [make_request (build_messages m (history_of w))]
         else []
       | None => []
       end.
Proof. rewrite history_of_eq. apply chat_sent_eq. Qed.

Lemma finish_chat_ignores_disk (env : request_env) (d : write_outcome)
      (m : str) (h : list turn) (result : outcome str * world) :
  fst (finish_chat (with_disk env d) m h result)
  = fst (finish_chat env m h result).
Proof.
  unfold finish_chat. destruct result as [[bot|e] w1]; [|reflexivity].
  destruct (printable (bot_line bot)); reflexivity.
Qed.

(** X5: the answer to a chat submission does not depend on whether the
    transcript could be written: a failed write is never reported. *)
Theorem chat_response_ignores_disk (env : request_env) (d : write_outcome)
        (get_json : outcome json) (w : world) :
  fst (chat (with_disk env d) get_json w) = fst (chat env get_json w).
Proof.
  destruct (accepted get_json) as [m|] eqn:Ea.
  - rewrite !(chat_accepted _ _ w _ Ea).
    destruct (printable (user_line m)); [|reflexivity].
    rewrite finish_chat_ignores_disk.
    now rewrite !get_gpt_response_eq.
  - now rewrite !(chat_rejected _ _ w Ea).
Qed.

(** X6: a chat request never touches the turns already stored.  After it
    the history is the old one, or the old one with one turn added at the
    end; only a dump that fails half-way can leave it empty. *)
Theorem chat_keeps_earlier_turns (env : request_env)
        (get_json : outcome json) (w : world) :
  let h := history_of w in
  let h' := history_of (snd (chat env get_json w)) in
  match disk env with
  | Written => h' = h \/ exists t, h' = h ++ [t]
  | OpenFails _ => h' = h
  | DumpFails _ => h' = h \/ h' = []
  end.
Proof.
  cbv zeta. rewrite !history_of_eq.
  destruct (chat_cases env get_json w)
    as [[m [bot [w1 [Ea [Hf Hc]]]]] | [Hf Hs]].
  - rewrite Hc. cbn [snd]. unfold after_write, write_json.
    destruct (disk env); cbn [snd file stored].
    + right. eexists. reflexivity.
    + now rewrite Hf.
    + now right.
  - rewrite Hf. destruct (disk env); try reflexivity; now left.
Qed.

(** *** Chat handler: what is answered and what is stored *)

(** X7: what is stored is what was answered.  Whenever a submission is
    answered 200 and the write succeeds, the history has gained exactly
    one turn, whose [user] is the trimmed message, whose [bot] is the text
    of the response, whose [timestamp] is the one in the response and
    whose [is_emergency] is the flag in the response, which is the
    detector's verdict on the trimmed message. *)
Theorem chat_records_its_answer (env : request_env)
        (get_json : outcome json) (w : world) (r : http_response)
        (w' : world) :
  chat env get_json w = (Returned r, w') ->
  status r = 200 ->
  disk env = Written ->
  exists m text,
    accepted get_json = Some m
    /\ r = {| status := 200;
              body := ChatBody text (detect_emergency m) (now env) |}
    /\ history_of w'
       = history_of w
         ++ [{| user := Some m; bot := Some text; timestamp := now env;
                is_emergency := detect_emergency m |}].
Proof.
  intros Hchat Hs Hd. rewrite !history_of_eq.
  destruct (chat_cases env get_json w)
    as [[m [bot [w1 [Ea [Hf Hc]]]]] | [Hf Hno]]; rewrite Hchat in *.
  - injection Hc as -> ->. exists m, bot. rewrite Hd.
    split; [exact Ea|]. split; reflexivity.
  - now destruct (Hno r eq_refl).
Qed.

Lemma chat_completed (env : request_env) (get_json : outcome json)
      (w : world) (m : str) (c : option str) (text : str) :
  accepted get_json = Some m ->
  detect_emergency m = false ->
  upstream env (make_request (build_messages m (stored (file w))))
  = Completed c ->
  console_writes_fixed_texts = true ->
  console_writes_config = true ->
  printable m = true ->
  completion_result (Completed c)
                    (logged w (make_request
                                 (build_messages m (stored (file w)))))
  = (Returned text,
     logged w (make_request (build_messages m (stored (file w))))) ->
  printable (slice_to 100 text) = true ->
  fst (chat env get_json w)
  = Returned {| status := 200; body := ChatBody text false (now env) |}.
Proof.
  intros Ea Hd Hu H Hc Hm Hres Ht.
  rewrite (chat_accepted env _ w _ Ea), (user_line_printable _ H Hm), Hd.
  rewrite get_gpt_response_eq. cbv zeta.
  rewrite (header_printable_ok H Hc), Hu, Hres.
  rewrite (finish_chat_ok _ _ _ _ _ H Ht). now rewrite Hd.
Qed.

(** X8: when the API returns text, and the console can write the message,
    the first hundred code points of the trimmed text, the configuration
    and the program's own texts, an accepted non-emergency submission is
    answered 200 with that text trimmed of surrounding white space and
    [is_emergency] false. *)
Theorem chat_returns_trimmed_completion (env : request_env)
        (get_json : outcome json) (w : world) (m text : str) :
  accepted get_json = Some m ->
  detect_emergency m = false ->
  upstream env (make_request (build_messages m (history_of w)))
  = Completed (Some text) ->
  console_writes_fixed_texts = true ->
  console_writes_config = true ->
  printable m = true ->
  printable (slice_to 100 (strip text)) = true ->
  fst (chat env get_json w)
  = Returned {| status := 200;
                body := ChatBody (strip text) false (now env) |}.
Proof.
  rewrite history_of_eq. intros Ea Hd Hu H Hc Hm Ht.
  apply (chat_completed env _ w m (Some text) _ Ea Hd Hu H Hc Hm);
    [|exact Ht].
  cbn [completion_result].
  now rewrite (success_line_printable _ H Ht).
Qed.

Lemma none_strip_error_generic :
  handle_api_error NONE_STRIP_ERROR = GENERIC_WARNING.
Proof. vm_compute. reflexivity. Qed.

Lemma none_strip_error_result (w : world) :
  console_writes_fixed_texts = true ->
  api_error_result NONE_STRIP_ERROR w = (Returned GENERIC_WARNING, w).
Proof.
  intros H. rewrite api_error_result_ok, none_strip_error_generic;
    [reflexivity|].
  apply error_line_printable; [exact H | fixed_at H 11].
Qed.

(** X9: a completion that carries no text does not break the request: the
    attribute error of [None.strip()] is caught with the API errors and
    none of the tests matches its message, so, when the console can write
    the message, the configuration and the program's own texts, the
    submission is answered 200 with the generic warning. *)
Theorem chat_completion_without_text (env : request_env)
        (get_json : outcome json) (w : world) (m : str) :
  accepted get_json = Some m ->
  detect_emergency m = false ->
  upstream env (make_request (build_messages m (history_of w)))
  = Completed None ->
  console_writes_fixed_texts = true ->
  console_writes_config = true ->
  printable m = true ->
  fst (get_gpt_response env m (history_of w) w) = Returned GENERIC_WARNING
  /\ fst (chat env get_json w)
     = Returned {| status := 200;
                   body := ChatBody GENERIC_WARNING false (now env) |}.
Proof.
  rewrite history_of_eq. intros Ea Hd Hu H Hc Hm. split.
  - rewrite get_gpt_response_eq. cbv zeta.
    rewrite (header_printable_ok H Hc), Hu. cbn [completion_result].
    now rewrite (none_strip_error_result _ H).
  - apply (chat_completed env _ w m None _ Ea Hd Hu H Hc Hm).
    + cbn [completion_result]. apply (none_strip_error_result _ H).
    + apply printable_slice. fixed_at H 16.
Qed.

(** *** Composer: bounds and context *)

Lemma turn_messages_length (t : turn) :
  (List.length (turn_messages t) <= 2)%nat.
Proof.
  unfold turn_messages.
  destruct (user t) as [[|c u]|], (bot t) as [[|c' b]|]; simpl; lia.
Qed.

Lemma flat_map_turn_messages_length (l : list turn) :
  (List.length (flat_map turn_messages l) <= 2 * List.length l)%nat.
Proof.
  induction l as [|t l IH]; simpl; [lia|].
  rewrite length_app. pose proof (turn_messages_length t). lia.
Qed.

Lemma last_n_length {A : Type} (n : nat) (l : list A) :
  (List.length (last_n n l) <= n)%nat.
Proof. unfold last_n. rewrite length_skipn. lia. Qed.

(** X10: however long the stored history, the list sent upstream has at
    least 2 and at most 14 messages: the system message, at most two for
    each of at most six turns, and the new message. *)
Theorem build_messages_bounded (user_input : str)
        (chat_history : list turn) :
  (2 <= List.length (build_messages user_input chat_history) <= 14)%nat.
Proof.
  rewrite build_messages_eq, !length_app. simpl.
  pose proof (flat_map_turn_messages_length (last_n 6 chat_history)).
  pose proof (last_n_length 6 chat_history). lia.
Qed.

Lemma last_n_snoc {A : Type} (n : nat) (l : list A) (x : A) :
  last_n (S n) (l ++ [x]) = last_n n l ++ [x].
Proof.
  unfold last_n. rewrite length_app, skipn_app. simpl List.length.
  replace (List.length l + 1 - S n)%nat with (List.length l - n)%nat by lia.
  replace (List.length l - n - List.length l)%nat with 0%nat by lia.
  reflexivity.
Qed.

(** X11: the turn a chat has just stored is the context right before the
    next message.  After a submission that was answered 200 and whose
    write succeeded, the request that the next accepted non-emergency
    submission sends upstream (the console writing its message, the
    configuration and the program's own texts) is: the system message, the
    messages of the last five earlier turns, the first message as a user
    message, its reply as an assistant message unless the reply is empty,
    and the new message. *)
Theorem next_request_carries_last_turn
        (env1 env2 : request_env) (get_json1 get_json2 : outcome json)
        (w w1 : world) (m1 m2 reply : str) (emergency : bool) (stamp : Z) :
  chat env1 get_json1 w
  = (Returned {| status := 200; body := ChatBody reply emergency stamp |},
     w1) ->
  accepted get_json1 = Some m1 ->
  disk env1 = Written ->
  accepted get_json2 = Some m2 ->
  detect_emergency m2 = false ->
  console_writes_fixed_texts = true ->
  console_writes_config = true ->
  printable m2 = true ->
  sent (snd (chat env2 get_json2 w1))
  = sent w1
    ++ [make_request
          ([{| msg_role := System; content := SYSTEM_PROMPT |}]
           ++ flat_map turn_messages (last_n 5 (history_of w))
           ++ [{| msg_role := User; content := m1 |}]
           ++ (if truthy reply
               then [{| msg_role := Assistant; content := reply |}]
               else [])
           ++ [{| msg_role := User; content := m2 |}])].
Proof.
  intros Hchat Ea1 Hd1 Ea2 He2 H Hc Hm2.
  rewrite chat_sent_eq, Ea2, He2, (user_line_printable _ H Hm2),
    (header_printable_ok H Hc).
  cbn [negb andb].
  destruct (chat_cases env1 get_json1 w)
    as [[m [reply0 [w0 [Ea [Hf Hcase]]]]] | [Hf Hno]]; rewrite Hchat in *.
  - rewrite Ea1 in Ea. injection Ea as <-.
    injection Hcase as <- _ _ ->. rewrite Hd1. cbn [after_write write_json snd file stored].
    rewrite history_of_eq.
    destruct (accepted_nonempty _ _ Ea1) as [c [r ->]].
    rewrite build_messages_eq, (last_n_snoc 5), flat_map_app.
    cbn [flat_map]. rewrite app_nil_r.
    unfold turn_messages at 2, chat_entry_of. cbn [user bot].
    destruct reply as [|c' b]; cbn [truthy]; rewrite <- ?app_assoc;
      reflexivity.
  - now destruct (Hno _ eq_refl).
Qed.

(** *** Matching whatever the ASCII case *)

Lemma lower_cp_plain (before after : str) (c : Z) :
  plain c = true -> lower_cp before c after = [ascii_lower_cp c].
Proof.
  unfold plain, lower_cp, ascii_lower_cp. intros H.
  destruct (is_ascii_upper c); [reflexivity|].
  destruct (is_ascii c); [reflexivity|]. simpl in H. now rewrite H.
Qed.

Lemma lower_from_plain (k b before_rev : str) :
  forallb plain k = true ->
  lower_from before_rev (k ++ b)
  = map ascii_lower_cp k ++ lower_from (rev k ++ before_rev) b.
Proof.
  revert before_rev. induction k as [|c k IH]; intros p; simpl; [reflexivity|].
  rewrite andb_true_iff. intros [Hc Hk].
  rewrite lower_cp_plain by exact Hc. rewrite IH by exact Hk. simpl.
  now rewrite <- app_assoc.
Qed.

Lemma Contains_lower_plain (k s : str) :
  forallb plain k = true ->
  Contains k s -> Contains (map ascii_lower_cp k) (lower s).
Proof.
  intros Hk [pre [post ->]]. unfold lower.
  destruct (lower_from_app pre (k ++ post) []) as [x ->].
  rewrite lower_from_plain by exact Hk.
  now exists x, (lower_from (rev k ++ rev pre ++ []) post).
Qed.

Lemma isspace_ascii_lower_cp (c : Z) :
  isspace (ascii_lower_cp c) = isspace c.
Proof.
  unfold ascii_lower_cp. destruct (is_ascii_upper c) eqn:E; [|reflexivity].
  unfold is_ascii_upper in E. rewrite andb_true_iff, !Z.leb_le in E.
  unfold isspace.
  repeat match goal with
         | |- context [?a <=? ?b] =>
           first [ rewrite (proj2 (Z.leb_gt a b)) by lia
                 | rewrite (proj2 (Z.leb_le a b)) by lia ]
         | |- context [?a =? ?b] =>
           rewrite (proj2 (Z.eqb_neq a b)) by lia
         end.
  reflexivity.
Qed.

Lemma solid_edges_ascii_lower (k : str) :
  solid_edges (map ascii_lower_cp k) = solid_edges k.
Proof.
  unfold solid_edges. rewrite <- map_rev.
  destruct k as [|c k]; [reflexivity|]. cbn [map].
  rewrite isspace_ascii_lower_cp.
  destruct (rev (c :: k)) as [|z r]; [reflexivity|]. cbn [map].
  now rewrite isspace_ascii_lower_cp.
Qed.

(** X12: the emergency path does not depend on the ASCII case of the
    message.  If the message contains a spelling made of ASCII and
    Devanagari code points whose lower-cased form is a keyword (such as
    CHEST PAIN or Heart Attack), the detector fires, whatever the Unicode
    tables of the runtime say about other code points; and when the
    console can write the message and the program's own texts the
    submission gets the emergency reply, with nothing sent upstream. *)
Theorem chat_emergency_any_case
        (env : request_env) (members : list (str * json))
        (message spelling keyword : str) (w : world) :
  dict_get (lit "message") members = Some (JString message) ->
  In keyword EMERGENCY_KEYWORDS ->
  forallb plain spelling = true ->
  map ascii_lower_cp spelling = keyword ->
  Contains spelling message ->
  detect_emergency message = true
  /\ (console_writes_fixed_texts = true ->
      printable (strip message) = true ->
      exists w',
        chat env (Returned (JObject members)) w
        = (Returned {| status := 200;
                       body := ChatBody EMERGENCY_REPLY true (now env) |}, w')
        /\ sent w' = sent w).
Proof.
  intros E Hin Hp Hmap Hc.
  destruct (keyword_solid _ Hin) as [Hcase Hs].
  assert (Hdet : forall text, Contains spelling text ->
                              detect_emergency text = true).
  { intros text Ht. apply detect_emergency_spec. exists keyword.
    split; [exact Hin|]. rewrite lower_caseless by exact Hcase.
    rewrite <- Hmap. now apply Contains_lower_plain. }
  split; [now apply Hdet|]. intros H Hm.
  assert (Hs' : solid_edges spelling = true)
    by (rewrite <- solid_edges_ascii_lower, Hmap; exact Hs).
  assert (Hk : spelling <> []) by (intros ->; discriminate Hs').
  pose proof (Contains_strip _ _ Hs' Hc) as Hc'.
  pose proof (Contains_nonempty _ _ Hk Hc') as Hne.
  rewrite (chat_emergency env _ w _ (accepted_string _ _ E Hne)
                          (Hdet _ Hc') H Hm).
  eexists. split; [reflexivity | apply sent_after_write].
Qed.

(** X13: the word "authentication" decides first and in any ASCII case:
    when the console can write the error text, the configuration and the
    program's own texts, an upstream error whose message contains a
    spelling of it gets the authentication warning, whatever else the
    message contains. *)
Theorem gateway_authentication_any_case
        (env : request_env) (user_input : str) (chat_history : list turn)
        (w : world) (error_msg spelling : str) :
  upstream env (make_request (build_messages user_input chat_history))
  = ApiError error_msg ->
  forallb plain spelling = true ->
  map ascii_lower_cp spelling = lit "authentication" ->
  Contains spelling error_msg ->
  console_writes_fixed_texts = true ->
  console_writes_config = true ->
  printable error_msg = true ->
  fst (get_gpt_response env user_input chat_history w)
  = Returned AUTH_WARNING.
Proof.
  intros Hu Hp Hmap Hc H Hcfg He.
  rewrite (get_gpt_response_failed _ _ _ w _ Hu H Hcfg He). cbn [fst].
  unfold handle_api_error.
  assert (Ha : contains (lit "authentication") (lower error_msg) = true).
  { apply contains_spec. rewrite <- Hmap. now apply Contains_lower_plain. }
  rewrite Ha, orb_true_r. reflexivity.
Qed.

(** *** Clearing and the next request *)

(** X14: clearing really drops the context.  When the clearing write got
    as far as opening the file, the next accepted non-emergency submission
    (the console writing its message, the configuration and the program's
    own texts) sends upstream the system message and the new message
    only. *)
Theorem clear_drops_context
        (env_clear env : request_env) (get_json : outcome json)
        (w : world) (m : str) :
  (forall e, disk env_clear <> OpenFails e) ->
  accepted get_json = Some m ->
  detect_emergency m = false ->
  console_writes_fixed_texts = true ->
  console_writes_config = true ->
  printable m = true ->
  sent (snd (chat env get_json (snd (clear_history env_clear w))))
  = sent w
    ++ [make_request [{| msg_role := System; content := SYSTEM_PROMPT |};
                      {| msg_role := User; content := m |}]].
Proof.
  intros Hd Ea He H Hc Hm.
  rewrite chat_sent_eq, Ea, He, (user_line_printable _ H Hm),
    (header_printable_ok H Hc), clear_history_eq.
  cbn [negb andb snd]. rewrite sent_after_write.
  replace (stored (file (after_write (disk env_clear) [] w))) with (@nil turn).
  - reflexivity.
  - unfold after_write, write_json.
    destruct (disk env_clear) as [|e|e]; [reflexivity | | reflexivity].
    now destruct (Hd e).
Qed.

(** *** Gateway: what it can give *)

Lemma api_error_result_returns (error_msg : str) (w : world) (text : str) :
  fst (api_error_result error_msg w) = Returned text -> In text WARNINGS.
Proof.
  unfold api_error_result. destruct (printable _); [|discriminate].
  intros [= <-]. apply handle_api_error_in_warnings.
Qed.

(** X15: [get_gpt_response] never touches the transcript file and calls
    [client.chat.completions.create] at most once: exactly once when the
    three lines of lines 67-69 could be printed, and not at all otherwise.
    Whenever it returns, what it returns is one of the five fixed warnings
    or the trimmed text of the completion, and the latter only when the
    line of line 83 could be printed. *)
Theorem gateway_answers (env : request_env) (user_input : str)
        (chat_history : list turn) (w : world) :
  let req := make_request (build_messages user_input chat_history) in
  let result := get_gpt_response env user_input chat_history w in
  file (snd result) = file w
  /\ sent (snd result) = sent w ++ (if header_printable then [req] else [])
  /\ forall text,
      fst result = Returned text ->
      In text WARNINGS
      \/ exists c, upstream env req = Completed (Some c)
                   /\ text = strip c
                   /\ printable (success_line (strip c)) = true.
Proof.
  cbv zeta. split; [apply get_gpt_response_world|].
  split; [apply get_gpt_response_world|].
  intros text. rewrite get_gpt_response_eq. cbv zeta.
  destruct header_printable; [|left; eapply api_error_result_returns; eassumption].
  unfold completion_result.
  destruct (upstream env _) as [[c|]|e];
    try (left; eapply api_error_result_returns; eassumption).
  destruct (printable (success_line (strip c))) eqn:Hp.
  - intros [= <-]. right. now exists c.
  - left. eapply api_error_result_returns; eassumption.
Qed.

End App.

(** ** The properties at concrete inputs

    The handlers run on a UTF-8 console, with no environment variable set
    and no case tables beyond ASCII. *)

Example lit_warning_sign : lit "⚠️ ok" = [0x26A0; 0xFE0F; 32; 111; 107].
Proof. reflexivity. Qed.

Example lit_siren : lit "🚨" = [0x1F6A8].
Proof. reflexivity. Qed.

Example lit_devanagari : lit "तेज दर्द" =
  [0x924; 0x947; 0x91C; 0x20; 0x926; 0x930; 0x94D; 0x926].
Proof. reflexivity. Qed.

Example strip_example : strip (lit "  a b	 ") = lit "a b".
Proof. reflexivity. Qed.

Example lower_example :
  lower no_case_tables (lit "Chest PAIN") = lit "chest pain".
Proof. reflexivity. Qed.

Example detect_upper_case :
  detect_emergency no_case_tables (lit "CHEST PAIN since noon") = true.
Proof. vm_compute. reflexivity. Qed.

Example detect_hindi :
  detect_emergency no_case_tables (lit "मुझे तेज दर्द है") = true.
Proof. vm_compute. reflexivity. Qed.

Example detect_nothing :
  detect_emergency no_case_tables (lit "I slept badly") = false.
Proof. vm_compute. reflexivity. Qed.

Example dict_get_last_wins :
  dict_get (lit "message")
           [(lit "message", JString (lit "a")); (lit "message", JNull)]
  = Some JNull.
Proof. vm_compute. reflexivity. Qed.

Example ten_turns_window :
  map content (build_messages (lit "hi") ten_turns)
  = [SYSTEM_PROMPT;
     lit "q4"; lit "a4"; lit "q5"; lit "a5"; lit "q6"; lit "a6";
     lit "q7"; lit "a7"; lit "q8"; lit "a8"; lit "q9"; lit "a9";
     lit "hi"].
Proof. vm_compute. reflexivity. Qed.

Example two_turns_window :
  map content (build_messages (lit "hi") (firstn 2 ten_turns))
  = [SYSTEM_PROMPT; lit "q0"; lit "a0"; lit "q1"; lit "a1"; lit "hi"].
Proof. vm_compute. reflexivity. Qed.

Example attribute_error_texts :
  attribute_error JNull (lit "strip") = NONE_STRIP_ERROR
  /\ attribute_error (JArray []) (lit "get")
     = lit "'list' object has no attribute 'get'"
  /\ attribute_error (JNumber (lit "1.5")) (lit "strip")
     = lit "'float' object has no attribute 'strip'".
Proof. vm_compute. repeat split. Qed.

Example utf8_console_writes_fixed_texts :
  console_writes_fixed_texts utf8_encodable = true
  /\ console_writes_config no_env utf8_encodable = true.
Proof. vm_compute. split; reflexivity. Qed.

Example no_content_is_generic :
  fst (get_gpt_response no_case_tables no_env utf8_encodable utf8_encode_error (sample_env 0 Written (Completed None))
                    (lit "hello") [] empty_world)
  = Returned GENERIC_WARNING.
Proof. vm_compute. reflexivity. Qed.

Example unprintable_completion_is_generic :
  fst (get_gpt_response no_case_tables no_env utf8_encodable utf8_encode_error
         (sample_env 0 Written (Completed (Some (lit "Fine " ++ [0xD83D]))))
         (lit "hello") [] empty_world)
  = Returned GENERIC_WARNING.
Proof. vm_compute. reflexivity. Qed.

Example unprintable_error_raises :
  fst (get_gpt_response no_case_tables no_env utf8_encodable utf8_encode_error
         (sample_env 0 Written (ApiError (lit "401 " ++ [0xD83D])))
         (lit "hello") [] empty_world)
  = Raised (utf8_encode_error []).
Proof. vm_compute. reflexivity. Qed.

Example chat_array_body_is_500 :
  fst (chat no_case_tables no_env utf8_encodable utf8_encode_error (sample_env 0 Written (Completed None))
                 (Returned (JArray [])) empty_world)
  = Returned {| status := 500;
                body := ErrorBody
                          (lit "Something went wrong. Please try again.") |}.
Proof. vm_compute. reflexivity. Qed.

Lemma chat_emergency_short_circuit_witness :
  exists w',
    chat no_case_tables no_env utf8_encodable utf8_encode_error (sample_env 7 Written (Completed None))
              (say (lit "  I have chest pain now ")) empty_world
    = (Returned {| status := 200;
                   body := ChatBody EMERGENCY_REPLY true 7 |}, w')
    /\ sent w' = sent empty_world.
Proof.
  destruct (chat_emergency_short_circuit
              no_case_tables no_env utf8_encodable utf8_encode_error
              (sample_env 7 Written (Completed None))
              [(lit "message", JString (lit "  I have chest pain now "))]
              (lit "  I have chest pain now ") (lit "chest pain") empty_world)
    as [_ H].
  - reflexivity.
  - left. reflexivity.
  - exists (lit "  I have "), (lit " now "). reflexivity.
  - vm_compute. reflexivity.
  - vm_compute. reflexivity.
  - exact H.
Defined.

(** C1, as stated, fails.  The fixed reply is made of ASCII and
    pictographs only: it is in English, not in several languages.  And a
    message with a keyword and a lone surrogate is answered 500 on a UTF-8
    console, with nothing stored. *)
Lemma emergency_reply_english_or_500 :
  english_with_pictographs EMERGENCY_REPLY = true
  /\ fst (chat no_case_tables no_env utf8_encodable utf8_encode_error (sample_env 7 Written (Completed None))
                    (say (lit "chest pain")) empty_world)
     = Returned {| status := 200; body := ChatBody EMERGENCY_REPLY true 7 |}
  /\ chat no_case_tables no_env utf8_encodable utf8_encode_error (sample_env 7 Written (Completed None))
               (say SURROGATE_MESSAGE) empty_world
     = (Returned {| status := 500;
                    body := ErrorBody
                              (lit "Something went wrong. Please try again.")
                 |},
        empty_world).
Proof. vm_compute. repeat split. Qed.

Lemma detect_emergency_iff_witness :
  detect_emergency no_case_tables (lit "Severe Pain") = true.
Proof.
  apply (proj1 (detect_emergency_iff no_case_tables (lit "Severe Pain"))).
  exists (lit "severe pain"). split.
  - right; right; right; left. reflexivity.
  - exists [], []. reflexivity.
Defined.

Lemma chat_blank_message_rejected_witness :
  chat no_case_tables no_env utf8_encodable utf8_encode_error (sample_env 7 Written (Completed None))
            (say (lit "   ")) {| file := Stored ten_turns; sent := [] |}
  = (Returned {| status := 400;
                 body := ErrorBody (lit "Message cannot be empty") |},
     {| file := Stored ten_turns; sent := [] |}).
Proof.
  apply (chat_blank_message_rejected
           no_case_tables no_env utf8_encodable utf8_encode_error
           (sample_env 7 Written (Completed None))
           [(lit "message", JString (lit "   "))] (lit "   ")).
  - reflexivity.
  - reflexivity.
Defined.

Lemma chat_missing_message_rejected_witness :
  chat no_case_tables no_env utf8_encodable utf8_encode_error (sample_env 7 Written (Completed None))
            (Returned (JObject [(lit "text", JString (lit "hello"))]))
            {| file := Stored ten_turns; sent := [] |}
  = (Returned {| status := 400;
                 body := ErrorBody (lit "Message cannot be empty") |},
     {| file := Stored ten_turns; sent := [] |}).
Proof.
  apply (chat_missing_message_rejected
           no_case_tables no_env utf8_encodable utf8_encode_error
           (sample_env 7 Written (Completed None))
           [(lit "text", JString (lit "hello"))]).
  reflexivity.
Defined.

Lemma build_messages_window_witness :
  last_n 6 ten_turns = skipn 4 ten_turns
  /\ build_messages (lit "hi") ten_turns
     = build_messages (lit "hi") (skipn 4 ten_turns).
Proof.
  apply (proj1 (proj2 (proj2 (build_messages_window
                                no_case_tables no_env utf8_encodable
                                utf8_encode_error (lit "hi") ten_turns)))
               (firstn 4 ten_turns) (skipn 4 ten_turns)).
  - reflexivity.
  - reflexivity.
Defined.

Lemma chat_absorbs_upstream_error_witness :
  fst (chat no_case_tables no_env utf8_encodable utf8_encode_error (sample_env 7 Written (ApiError (lit "Connection timeout")))
                 (say (lit " hello ")) empty_world)
  = Returned {| status := 200; body := ChatBody TIMEOUT_WARNING false 7 |}
  /\ history_of
       (snd (chat no_case_tables no_env utf8_encodable utf8_encode_error
               (sample_env 7 Written (ApiError (lit "Connection timeout")))
               (say (lit " hello ")) empty_world))
     = [{| user := Some (lit "hello"); bot := Some TIMEOUT_WARNING;
           timestamp := 7; is_emergency := false |}].
Proof.
  destruct (chat_absorbs_upstream_error
              no_case_tables no_env utf8_encodable utf8_encode_error
              (sample_env 7 Written (ApiError (lit "Connection timeout")))
              [(lit "message", JString (lit " hello "))]
              (lit " hello ") (lit "Connection timeout") empty_world)
    as [_ [Hchat Hhist]].
  - reflexivity.
  - vm_compute. discriminate.
  - vm_compute. reflexivity.
  - reflexivity.
  - vm_compute. reflexivity.
  - vm_compute. reflexivity.
  - vm_compute. reflexivity.
  - vm_compute. reflexivity.
  - split.
    + unfold say. rewrite Hchat. vm_compute. reflexivity.
    + unfold say. rewrite Hhist; [|reflexivity]. vm_compute. reflexivity.
Defined.

(** C5, as stated, fails.  When the file cannot be opened for writing the
    submission is still answered 200 with the warning, and the turn is not
    in the transcript; and a message with a lone surrogate is answered 500
    on a UTF-8 console before the gateway is reached. *)
Lemma upstream_error_turn_lost_or_500 :
  (fst (chat no_case_tables no_env utf8_encodable utf8_encode_error (sample_env 7 (OpenFails (lit "Permission denied"))
                              (ApiError (lit "Connection timeout")))
                  (say (lit " hello ")) empty_world)
   = Returned {| status := 200; body := ChatBody TIMEOUT_WARNING false 7 |}
   /\ history_of
        (snd (chat no_case_tables no_env utf8_encodable utf8_encode_error (sample_env 7 (OpenFails (lit "Permission denied"))
                                    (ApiError (lit "Connection timeout")))
                        (say (lit " hello ")) empty_world))
      = [])
  /\ chat no_case_tables no_env utf8_encodable utf8_encode_error (sample_env 7 Written (ApiError (lit "Connection timeout")))
               (say SURROGATE_HELLO) empty_world
     = (Returned {| status := 500;
                    body := ErrorBody
                              (lit "Something went wrong. Please try again.")
                 |},
        empty_world).
Proof. vm_compute. repeat split. Qed.

Lemma gateway_classifies_401_and_429_witness :
  fst (get_gpt_response no_case_tables no_env utf8_encodable utf8_encode_error
         (sample_env 0 Written
                     (ApiError (lit "Error code: 401 - No auth credentials found")))
         (lit "hello") [] empty_world)
  = Returned AUTH_WARNING
  /\ fst (get_gpt_response no_case_tables no_env utf8_encodable utf8_encode_error
            (sample_env 0 Written
                        (ApiError (lit "Error code: 429 - Too Many Requests")))
            (lit "hello") [] empty_world)
     = Returned RATE_LIMIT_WARNING.
Proof.
  split.
  - apply (proj1 (gateway_classifies_401_and_429
                    no_case_tables no_env utf8_encodable utf8_encode_error
                    (sample_env 0 Written
                       (ApiError
                          (lit "Error code: 401 - No auth credentials found")))
                    (lit "hello") [] empty_world _ eq_refl
                    eq_refl eq_refl eq_refl)).
    vm_compute. reflexivity.
  - apply (proj2 (gateway_classifies_401_and_429
                    no_case_tables no_env utf8_encodable utf8_encode_error
                    (sample_env 0 Written
                       (ApiError (lit "Error code: 429 - Too Many Requests")))
                    (lit "hello") [] empty_world _ eq_refl
                    eq_refl eq_refl eq_refl));
      vm_compute; reflexivity.
Defined.

(** C6, as stated, fails: a message that contains "429" and also the word
    "credits" gets the credits warning, because that test comes first. *)
Lemma gateway_429_classified_as_credits :
  contains (lit "429") RATE_LIMIT_429 = true
  /\ fst (get_gpt_response no_case_tables no_env utf8_encodable utf8_encode_error (sample_env 0 Written (ApiError RATE_LIMIT_429))
                       (lit "hello") [] empty_world)
     = Returned CREDITS_WARNING
  /\ str_eqb CREDITS_WARNING RATE_LIMIT_WARNING = false.
Proof. vm_compute. repeat split. Qed.

Lemma test_api_reports_key_prefix_witness :
  test_api (key_env LONG_KEY)
  = {| status := 200;
       body := TestBody (lit "ok") DEFAULT_SITE_URL true
                        (Some (lit "sk-or-v1-0123456789a")) MODEL |}
  /\ str_eqb (lit "sk-or-v1-0123456789a") LONG_KEY = false
  /\ test_api no_env
     = {| status := 200;
          body := TestBody (lit "ok") DEFAULT_SITE_URL false None MODEL |}.
Proof.
  destruct (proj1 (test_api_reports_key_prefix (key_env LONG_KEY)) LONG_KEY)
    as [Htest _].
  - reflexivity.
  - vm_compute. discriminate.
  - split; [|split].
    + rewrite Htest. vm_compute. reflexivity.
    + vm_compute. reflexivity.
    + rewrite (proj2 (test_api_reports_key_prefix no_env) (or_introl eq_refl)).
      vm_compute. reflexivity.
Defined.

(** C7, as stated, fails: a key of at most 20 code points is reported in
    full. *)
Lemma test_api_short_key_in_full :
  OPENAI_API_KEY (key_env SHORT_KEY) = Some SHORT_KEY
  /\ test_api (key_env SHORT_KEY)
     = {| status := 200;
          body := TestBody (lit "ok") DEFAULT_SITE_URL true
                           (Some SHORT_KEY) MODEL |}.
Proof. vm_compute. split; reflexivity. Qed.

Lemma history_after_submissions_witness :
  map status (fst (serve no_case_tables no_env utf8_encodable utf8_encode_error three_submissions empty_world))
  = [200; 400; 200]
  /\ map entry_key
         (history_of (snd (serve no_case_tables no_env utf8_encodable utf8_encode_error three_submissions empty_world)))
     = [(Some (lit "hello"), 1); (Some (lit "I have chest pain"), 3)]
  /\ Sorted Z.le
       (map timestamp
            (history_of (snd (serve no_case_tables no_env utf8_encodable utf8_encode_error three_submissions empty_world)))).
Proof.
  destruct (history_after_submissions
              no_case_tables no_env utf8_encodable utf8_encode_error
              three_submissions empty_world)
    as [_ [_ [Hkeys [Hsorted _]]]].
  - reflexivity.
  - repeat constructor.
  - split; [vm_compute; reflexivity|]. split.
    + rewrite Hkeys. vm_compute. reflexivity.
    + apply Hsorted. unfold clock_readings, three_submissions. simpl.
      repeat constructor; intro H; discriminate H.
Defined.

(** C8, as stated, fails twice over.  A submission answered 200 leaves
    nothing in the history when the file cannot be opened for writing; and
    when the clock steps back between two submissions the stored
    timestamps decrease. *)
Lemma history_lost_or_out_of_order :
  (map status
       (fst (serve no_case_tables no_env utf8_encodable utf8_encode_error
               [(sample_env 1 (OpenFails (lit "Permission denied"))
                            (Completed (Some (lit "Drink water."))),
                 say (lit "hello"))]
               empty_world))
   = [200]
   /\ history_of
        (snd (serve no_case_tables no_env utf8_encodable utf8_encode_error
                [(sample_env 1 (OpenFails (lit "Permission denied"))
                             (Completed (Some (lit "Drink water."))),
                  say (lit "hello"))]
                empty_world))
      = [])
  /\ (map status
          (fst (serve no_case_tables no_env utf8_encodable utf8_encode_error
                  [(sample_env 5 Written (Completed (Some (lit "Hi."))),
                    say (lit "hello"));
                   (sample_env 3 Written (Completed (Some (lit "Bye."))),
                    say (lit "thanks"))]
                  empty_world))
      = [200; 200]
      /\ map timestamp
             (history_of
                (snd (serve no_case_tables no_env utf8_encodable utf8_encode_error
                        [(sample_env 5 Written
                                     (Completed (Some (lit "Hi."))),
                          say (lit "hello"));
                         (sample_env 3 Written
                                     (Completed (Some (lit "Bye."))),
                          say (lit "thanks"))]
                        empty_world)))
         = [5; 3]).
Proof. vm_compute. repeat split. Qed.

(** ** The further properties at concrete inputs *)


Lemma chat_status_witness :
  chat no_case_tables no_env utf8_encodable utf8_encode_error (sample_env 0 Written (Completed None))
            (Returned (JArray [])) {| file := Stored ten_turns; sent := [] |}
  = (Returned {| status := 500;
                 body := ErrorBody
                           (lit "Something went wrong. Please try again.") |},
     {| file := Stored ten_turns; sent := [] |}).
Proof.
  apply (proj1 (proj2 (chat_status
                         no_case_tables no_env utf8_encodable
                         utf8_encode_error
                         (sample_env 0 Written (Completed None))
                         (Returned (JArray []))
                         {| file := Stored ten_turns; sent := [] |}))).
  - reflexivity.
  - vm_compute. reflexivity.
Defined.

Lemma chat_records_its_answer_witness :
  exists m text,
    accepted (say (lit " hello ")) = Some m
    /\ {| status := 200; body := ChatBody (lit "Rest well.") false 1 |}
       = {| status := 200;
            body := ChatBody text (detect_emergency no_case_tables m)
                             (now (sample_env
                                     1 Written
                                     (Completed (Some (lit " Rest well. "))))) |}
    /\ history_of
         (snd (chat no_case_tables no_env utf8_encodable utf8_encode_error
                 (sample_env 1 Written (Completed (Some (lit " Rest well. "))))
                 (say (lit " hello ")) empty_world))
       = history_of empty_world
         ++ [{| user := Some m; bot := Some text;
                timestamp :=
                  now (sample_env 1 Written
                                  (Completed (Some (lit " Rest well. "))));
                is_emergency := detect_emergency no_case_tables m |}].
Proof.
  apply (chat_records_its_answer
           no_case_tables no_env utf8_encodable utf8_encode_error
           (sample_env 1 Written (Completed (Some (lit " Rest well. "))))
           (say (lit " hello ")) empty_world).
  - vm_compute. reflexivity.
  - reflexivity.
  - reflexivity.
Defined.

Lemma chat_returns_trimmed_completion_witness :
  fst (chat no_case_tables no_env utf8_encodable utf8_encode_error (sample_env 1 Written (Completed (Some (lit " Rest well. "))))
                 (say (lit " hello ")) empty_world)
  = Returned {| status := 200;
                body := ChatBody (strip (lit " Rest well. ")) false 1 |}.
Proof.
  apply (chat_returns_trimmed_completion
           no_case_tables no_env utf8_encodable utf8_encode_error
           (sample_env 1 Written (Completed (Some (lit " Rest well. "))))
           (say (lit " hello ")) empty_world (lit "hello")
           (lit " Rest well. ")).
  - reflexivity.
  - vm_compute. reflexivity.
  - reflexivity.
  - vm_compute. reflexivity.
  - vm_compute. reflexivity.
  - vm_compute. reflexivity.
  - vm_compute. reflexivity.
Defined.

Lemma chat_completion_without_text_witness :
  fst (chat no_case_tables no_env utf8_encodable utf8_encode_error (sample_env 1 Written (Completed None))
                 (say (lit "hello")) empty_world)
  = Returned {| status := 200;
                body := ChatBody GENERIC_WARNING false 1 |}.
Proof.
  apply (proj2 (chat_completion_without_text
                  no_case_tables no_env utf8_encodable utf8_encode_error
                  (sample_env 1 Written (Completed None))
                  (say (lit "hello")) empty_world (lit "hello")
                  eq_refl eq_refl eq_refl eq_refl eq_refl eq_refl)).
Defined.

Lemma next_request_carries_last_turn_witness :
  sent (snd (chat no_case_tables no_env utf8_encodable utf8_encode_error
               (sample_env 2 Written (Completed None))
               (say (lit "thanks"))
               (snd (chat no_case_tables no_env utf8_encodable utf8_encode_error
                       (sample_env 1 Written
                                   (Completed (Some (lit "Rest well."))))
                       (say (lit "hello")) empty_world))))
  = sent (snd (chat no_case_tables no_env utf8_encodable utf8_encode_error
                 (sample_env 1 Written (Completed (Some (lit "Rest well."))))
                 (say (lit "hello")) empty_world))
    ++ [make_request
          no_env
          ([{| msg_role := System; content := SYSTEM_PROMPT |}]
           ++ flat_map turn_messages (last_n 5 (history_of empty_world))
           ++ [{| msg_role := User; content := lit "hello" |}]
           ++ (if truthy (lit "Rest well.")
               then [{| msg_role := Assistant; content := lit "Rest well." |}]
               else [])
           ++ [{| msg_role := User; content := lit "thanks" |}])].
Proof.
  apply (next_request_carries_last_turn
           no_case_tables no_env utf8_encodable utf8_encode_error
           (sample_env 1 Written (Completed (Some (lit "Rest well."))))
           (sample_env 2 Written (Completed None))
           (say (lit "hello")) (say (lit "thanks")) empty_world
           (snd (chat no_case_tables no_env utf8_encodable utf8_encode_error
                   (sample_env 1 Written (Completed (Some (lit "Rest well."))))
                   (say (lit "hello")) empty_world))
           (lit "hello") (lit "thanks") (lit "Rest well.") false 1).
  - vm_compute. reflexivity.
  - reflexivity.
  - reflexivity.
  - reflexivity.
  - vm_compute. reflexivity.
  - vm_compute. reflexivity.
  - vm_compute. reflexivity.
  - vm_compute. reflexivity.
Defined.

Lemma chat_emergency_any_case_witness :
  detect_emergency no_case_tables (lit " I think it is a Heart ATTACK ")
  = true
  /\ exists w',
      chat no_case_tables no_env utf8_encodable utf8_encode_error (sample_env 7 Written (Completed None))
                (say (lit " I think it is a Heart ATTACK ")) empty_world
      = (Returned {| status := 200;
                     body := ChatBody EMERGENCY_REPLY true 7 |}, w')
      /\ sent w' = sent empty_world.
Proof.
  destruct (chat_emergency_any_case
              no_case_tables no_env utf8_encodable utf8_encode_error
              (sample_env 7 Written (Completed None))
              [(lit "message", JString (lit " I think it is a Heart ATTACK "))]
              (lit " I think it is a Heart ATTACK ")
              (lit "Heart ATTACK") (lit "heart attack") empty_world)
    as [Hdet Hchat].
  - reflexivity.
  - do 5 right. left. reflexivity.
  - reflexivity.
  - reflexivity.
  - exists (lit " I think it is a "), (lit " "). reflexivity.
  - split; [exact Hdet|]. apply Hchat; vm_compute; reflexivity.
Defined.

Lemma gateway_authentication_any_case_witness :
  fst (get_gpt_response no_case_tables no_env utf8_encodable utf8_encode_error
         (sample_env 0 Written
                     (ApiError (lit "429: Authentication server busy")))
         (lit "hello") [] empty_world)
  = Returned AUTH_WARNING.
Proof.
  apply (gateway_authentication_any_case
           no_case_tables no_env utf8_encodable utf8_encode_error
           (sample_env 0 Written
                       (ApiError (lit "429: Authentication server busy")))
           (lit "hello") [] empty_world
           (lit "429: Authentication server busy") (lit "Authentication")).
  - reflexivity.
  - reflexivity.
  - reflexivity.
  - exists (lit "429: "), (lit " server busy"). reflexivity.
  - vm_compute. reflexivity.
  - vm_compute. reflexivity.
  - vm_compute. reflexivity.
Defined.

Lemma clear_drops_context_witness :
  sent (snd (chat no_case_tables no_env utf8_encodable utf8_encode_error
               (sample_env 2 Written (Completed None))
               (say (lit "hello"))
               (snd (clear_history
                       (sample_env 1 Written (Completed None))
                       {| file := Stored ten_turns; sent := [] |}))))
  = sent {| file := Stored ten_turns; sent := [] |}
    ++ [make_request
          no_env
          [{| msg_role := System; content := SYSTEM_PROMPT |};
           {| msg_role := User; content := lit "hello" |}]].
Proof.
  apply (clear_drops_context
           no_case_tables no_env utf8_encodable utf8_encode_error
           (sample_env 1 Written (Completed None))
           (sample_env 2 Written (Completed None))
           (say (lit "hello"))
           {| file := Stored ten_turns; sent := [] |} (lit "hello")).
  - intros e H. discriminate H.
  - reflexivity.
  - vm_compute. reflexivity.
  - vm_compute. reflexivity.
  - vm_compute. reflexivity.
  - vm_compute. reflexivity.
Defined.
